(** * Sentinel-2 TOA download: scene acceptance and raster post-processing

    A shallow embedding of [UseGEE_Download_S2_Imgs.py].

    - Python [float]s are IEEE binary64 numbers: Rocq's primitive floats.
    - Earth Engine client objects are deferred computations; the script only
      builds their expression trees and asks the server for a value with
      [getInfo].  They are modelled by the syntax tree [ee].
    - The Earth Engine server, geemap's exporter, rasterio, and Python's
      number and date formatting are collaborators of the script.  They are
      gathered in a [World]; every statement below holds for all worlds.
    - The script's effects (console output, remote requests, file reads and
      writes) are threaded through a state-and-exception monad that also
      records the sequence of collaborator calls. *)

From Stdlib Require Import ZArith List String Ascii Floats Lia Bool.
From Stdlib Require Import DecimalString.
Import ListNotations.

Set Warnings "-inexact-float".
Set Implicit Arguments.

(** [length] is the length of a list; the length of a string is written
    [String.length]. *)
Abbreviation length := Datatypes.length (only parsing).

(* ================================================================= *)
(** ** Python built-ins used by the script *)

Module Py.

(** One bound of [a[start:stop]] (step 1) on a sequence of length [n], as
    [slice.indices] computes it: a negative bound counts from the end, and
    the result is clamped to [0..n]; an omitted bound takes [default]. *)
Definition bound (n : Z) (i : option Z) (default : Z) : Z :=
  match i with
  | None => default
  | Some i => if (i <? 0)%Z then Z.max 0 (i + n) else Z.min i n
  end.

Definition slice_start (start : option Z) (n : nat) : nat :=
  Z.to_nat (bound (Z.of_nat n) start 0).

Definition slice_len (start stop : option Z) (n : nat) : nat :=
  Z.to_nat (bound (Z.of_nat n) stop (Z.of_nat n)
            - bound (Z.of_nat n) start 0).

Definition slice {A} (start stop : option Z) (l : list A) : list A :=
  firstn (slice_len start stop (length l))
         (skipn (slice_start start (length l)) l).

(** [s.replace(old, new)] for a non-empty [old] (the only use the script
    makes of it): occurrences are replaced left to right, without
    overlap.  [skip] counts the characters of a match still to drop. *)
Fixpoint replace_from (old new : string) (skip : nat) (s : string) : string :=
  match s with
  | EmptyString => EmptyString
  | String ch rest =>
      match skip with
      | S k => replace_from old new k rest
      | O =>
          if String.prefix old s
          then new ++ replace_from old new (String.length old - 1) rest
          else String ch (replace_from old new 0 rest)
      end
  end.

Definition replace (old new s : string) : string := replace_from old new 0 s.

(** [str(n)] for an [int]. *)
Definition str (n : Z) : string := NilZero.string_of_int (Z.to_int n).

(** [range(n)]. *)
Definition range (n : Z) : list Z := map Z.of_nat (seq 0 (Z.to_nat n)).

End Py.

(* ================================================================= *)
(** ** numpy arrays of rank 3 *)

(** What [src.read()] returns: an array of shape [(bands, rows, cols)].  The
    shape is kept beside the planes, as numpy does: an array with no rows
    still has a width. *)
Record ndarray := mk_ndarray {
  dtype  : string;
  nbands : nat;
  height : nat;
  width  : nat;
  planes : list (list (list float))
}.

Definition shape (a : ndarray) : nat * nat * nat := (nbands a, height a, width a).

Definition well_shaped (a : ndarray) : Prop :=
  length (planes a) = nbands a /\
  Forall (fun plane => length plane = height a /\
                       Forall (fun row => length row = width a) plane)
         (planes a).

Definition pixel (a : ndarray) (k i j : nat) : option float :=
  match nth_error (planes a) k with
  | Some plane =>
      match nth_error plane i with
      | Some row => nth_error row j
      | None => None
      end
  | None => None
  end.

(** A slice [start:stop] of one axis. *)
Definition axis_slice : Type := option Z * option Z.

(** [a[s0, s1, s2]] with three basic slices. *)
Definition getitem (a : ndarray) (s0 s1 s2 : axis_slice) : ndarray :=
  {| dtype  := dtype a;
     nbands := Py.slice_len (fst s0) (snd s0) (nbands a);
     height := Py.slice_len (fst s1) (snd s1) (height a);
     width  := Py.slice_len (fst s2) (snd s2) (width a);
     planes := map (fun plane =>
                      map (Py.slice (fst s2) (snd s2))
                          (Py.slice (fst s1) (snd s1) plane))
                   (Py.slice (fst s0) (snd s0) (planes a)) |}.

(** [download_data[:, 1:-1, 1:-1]] (line 22). *)
Definition crop_border (download_data : ndarray) : ndarray :=
  getitem download_data (None, None) (Some 1%Z, Some (-1)%Z) (Some 1%Z, Some (-1)%Z).

(* ================================================================= *)
(** ** Georeferencing: affine transforms and raster profiles *)

(** The six numbers the script calls [crsTransform]:
    [(x_scale, x_shear, x_translate, y_shear, y_scale, y_translate)]. *)
Definition crs_tuple : Type := float * float * float * float * float * float.

(** [rasterio.transform.Affine(a, b, c, d, e, f)]. *)
Record Affine := mk_Affine {
  aff_a : float; aff_b : float; aff_c : float;
  aff_d : float; aff_e : float; aff_f : float
}.

(** [Affine] applied to the unpacked [crsTransform] (line 24). *)
Definition Affine_of (t : crs_tuple) : Affine :=
  let '(a, b, c, d, e, f) := t in mk_Affine a b c d e f.

(** The origin of a transform: the coordinates of the outer corner of
    pixel (0, 0). *)
Definition origin (T : Affine) : float * float := (aff_c T, aff_f T).

(** [T * (col, row)]: the coordinates a transform gives to a pixel index,
    as the affine package computes them. *)
Definition pixel_to_geo (T : Affine) (col row : float) : float * float :=
  (aff_a T * col + aff_b T * row + aff_c T,
   aff_d T * col + aff_e T * row + aff_f T)%float.

(** [rasterio.crs.CRS.from_epsg(code)]. *)
Inductive CRS := from_epsg (code : Z).

(** The keyword arguments of [rasterio.open(path, 'w', **profile)]
    (lines 29-39). *)
Record profile := mk_profile {
  driver    : string;
  p_dtype   : string;
  nodata    : option float;
  p_width   : nat;
  p_height  : nat;
  count     : nat;
  crs       : CRS;
  transform : Affine;
  compress  : string
}.

(* ================================================================= *)
(** ** Earth Engine client objects *)

(** An Earth Engine object is a description of a server-side computation.
    One constructor per API call the script makes; a Python number passed
    where an object is expected is an [ee_constant]. *)
Inductive ee : Type :=
| ee_Geometry_Rectangle (xmin ymin xmax ymax : float)
| ee_ImageCollection (id : string)
| ee_filterDate (collection : ee) (start stop : string)
| ee_filterBounds (collection : ee) (geometry : ee)
| ee_select (obj : ee) (selectors : list string)
| ee_sort (collection : ee) (property : string)
| ee_size (collection : ee)
| ee_toList (collection : ee) (count : ee)
| ee_List_get (lst : ee) (index : Z)
| ee_Image (arg : ee)
| ee_constant (value : Z)
| ee_clip (image : ee) (geometry : ee)
| ee_projection (image : ee)
| ee_crs (proj : ee)
| ee_Reducer_count
| ee_reduceRegion (image : ee) (reducer : ee) (geometry : ee)
                  (scale : Z) (maxPixels : float)
| ee_get (obj : ee) (key : string)
| ee_Number (arg : ee)
| ee_divide (left right : ee)
| ee_reproject (image : ee) (crs : ee) (scale : Z).

(** The keyword arguments of [geemap.download_ee_image] (lines 142-149). *)
Record download_request := mk_request {
  rq_image         : ee;
  rq_filename      : string;
  rq_region        : ee;
  rq_crs           : string;
  rq_crs_transform : crs_tuple;
  rq_resampling    : string
}.

(* ================================================================= *)
(** ** Effects *)

(** A Python exception, by the name of its class. *)
Definition exn : Type := string.

Inductive outcome (A : Type) : Type :=
| Return (a : A)
| Raise (e : exn).
Arguments Return {A} a.
Arguments Raise {A} e.

(** The calls the script makes to its collaborators, in the order it makes
    them. *)
Inductive event : Type :=
| ev_print (line : string)
| ev_getInfo (query : ee)
| ev_download (request : download_request)
| ev_read (path : string)
| ev_write (path : string) (prof : profile) (data : ndarray).

(** The collaborators.  [fs] is the state of the file system.  A remote
    call or a file operation may raise; an exporter or a writer that raises
    may still have touched the file system.

    [getInfo_int] and [getInfo_float] are [getInfo] on a query whose answer
    the script uses as an [int] (the collection size, a timestamp) or as a
    number it formats with [.4f] and compares (the coverage ratio).
    [strftime_ms ts] is
    [datetime.fromtimestamp(ts / 1000).strftime('%Y-%m-%d %H:%M:%S')], and
    [format_f n x] is [format(x, '.nf')]. *)
Record World := mk_World {
  fs : Type;
  getInfo_int       : ee -> outcome Z;
  getInfo_float     : ee -> outcome float;
  download_ee_image : download_request -> fs -> outcome unit * fs;
  rasterio_read     : string -> fs -> outcome ndarray;
  rasterio_write    : string -> profile -> ndarray -> fs -> outcome unit * fs;
  strftime_ms       : Z -> outcome string;
  format_f          : nat -> float -> string
}.

(** What running a piece of the script from a file system gives: a value or
    an exception, the file system left behind, and the calls made. *)
Record result (F A : Type) := mk_result {
  value : outcome A;
  files : F;
  calls : list event
}.
Arguments mk_result {F A} value files calls.

Definition M (W : World) (A : Type) : Type := fs W -> result (fs W) A.

Definition ret {W A} (a : A) : M W A :=
  fun s => mk_result (Return a) s [].

Definition bind {W A B} (m : M W A) (k : A -> M W B) : M W B :=
  fun s =>
    let r := m s in
    match value r with
    | Return a =>
        let r' := k a (files r) in
        mk_result (value r') (files r') (calls r ++ calls r')
    | Raise e => mk_result (Raise e) (files r) (calls r)
    end.

Notation "x <- m ;; k" := (bind m (fun x => k))
  (at level 61, m at next level, right associativity).
Notation "m ;; k" := (bind m (fun _ => k))
  (at level 61, right associativity).

(** A [for] loop over a list: the body runs on each element in turn; an
    exception leaves the loop. *)
Fixpoint for_each {W} (l : list Z) (body : Z -> M W unit) : M W unit :=
  match l with
  | [] => ret tt
  | x :: rest => body x ;; for_each rest body
  end.

Section Calls.
Variable W : World.

Definition print (line : string) : M W unit :=
  fun s => mk_result (Return tt) s [ev_print line].

Definition getInfo_as_int (query : ee) : M W Z :=
  fun s => mk_result (getInfo_int W query) s [ev_getInfo query].

Definition getInfo_as_float (query : ee) : M W float :=
  fun s => mk_result (getInfo_float W query) s [ev_getInfo query].

Definition strftime (timestamp : Z) : M W string :=
  fun s => mk_result (strftime_ms W timestamp) s [].

Definition download (request : download_request) : M W unit :=
  fun s =>
    let '(o, s') := download_ee_image W request s in
    mk_result o s' [ev_download request].

(** [with rasterio.open(path) as src: src.read()]. *)
Definition read_raster (path : string) : M W ndarray :=
  fun s => mk_result (rasterio_read W path s) s [ev_read path].

(** [with rasterio.open(path, 'w', **profile) as dst: dst.write(data)]. *)
Definition write_raster (path : string) (prof : profile) (data : ndarray)
  : M W unit :=
  fun s =>
    let '(o, s') := rasterio_write W path prof data s in
    mk_result o s' [ev_write path prof data].

End Calls.

(* ================================================================= *)
(** ** The script *)

Local Open Scope string_scope.

(** Lines 27-39: the [profile] dictionary built for the array about to be
    written. *)
Definition raster_profile (download_data : ndarray) (prj : CRS) (trans : Affine)
  : profile :=
  let '(_, height, width) := shape download_data in
  {| driver    := "GTiff";
     p_dtype   := dtype download_data;
     nodata    := None;
     p_width   := width;
     p_height  := height;
     count     := fst (fst (shape download_data));
     crs       := prj;
     transform := trans;
     compress  := "lzw" |}.

Section Script.
Variable W : World.

(** [Process_Downloaded_Imgs(crsTransform, download_path)], lines 7-44. *)
Definition Process_Downloaded_Imgs (crsTransform : crs_tuple)
                                   (download_path : string) : M W unit :=
  download_data <- read_raster W download_path ;;
  let download_data := crop_border download_data in
  let trans := Affine_of crsTransform in
  let prj := from_epsg 4326 in
  let profile := raster_profile download_data prj trans in
  write_raster W (Py.replace ".tif" ".tif" download_path) profile download_data.

(** The arguments of [Sentinel2_TOA_Download]. *)
Record arguments := mk_arguments {
  lon_min : float;
  lon_max : float;
  lat_min : float;
  lat_max : float;
  start_date_str : string;
  end_date_str : string;
  download_folderpath : string;
  bands : list string;
  coverage_ratio_threshold : float;
  resample_resolution : float;
  is_postprocess : bool
}.

(** A call that leaves the keyword arguments to their defaults
    (lines 55-58). *)
Definition with_defaults (lon_min lon_max lat_min lat_max : float)
    (start_date_str end_date_str download_folderpath : string) : arguments :=
  {| lon_min := lon_min; lon_max := lon_max;
     lat_min := lat_min; lat_max := lat_max;
     start_date_str := start_date_str; end_date_str := end_date_str;
     download_folderpath := download_folderpath;
     bands := ["B2"; "B3"; "B4"; "B8"];
     coverage_ratio_threshold := 0.99%float;
     resample_resolution := 0.00008983%float;
     is_postprocess := true |}.

Variable args : arguments.

(** Line 90. *)
Definition rect_polygon : ee :=
  ee_Geometry_Rectangle (lon_min args) (lat_min args) (lon_max args) (lat_max args).

(** Lines 94 and 97. *)
Definition sentinel2_toa_dataset : ee :=
  ee_sort
    (ee_select
       (ee_filterBounds
          (ee_filterDate (ee_ImageCollection "COPERNICUS/S2_HARMONIZED")
                         (start_date_str args) (end_date_str args))
          rect_polygon)
       (bands args))
    "system:time_start".

(** Line 100. *)
Definition imgs_list : ee :=
  ee_toList sentinel2_toa_dataset (ee_size sentinel2_toa_dataset).

(** Line 108. *)
Definition selected_img (img_idx : Z) : ee :=
  ee_clip (ee_Image (ee_List_get imgs_list img_idx)) rect_polygon.

(** Line 109. *)
Definition projection (img_idx : Z) : ee :=
  ee_projection (ee_select (selected_img img_idx) ["B2"]).

(** Lines 112-113. *)
Definition valid_pixels_num (img_idx : Z) : ee :=
  ee_Number
    (ee_get (ee_reduceRegion (ee_select (selected_img img_idx) ["B2"])
                             ee_Reducer_count rect_polygon 10 1e13%float)
            "B2").

(** Line 116. *)
Definition fullone_image (img_idx : Z) : ee :=
  ee_clip (ee_reproject (ee_Image (ee_constant 1))
                        (ee_crs (projection img_idx)) 10)
          rect_polygon.

(** Lines 117-118. *)
Definition total_pixels_num (img_idx : Z) : ee :=
  ee_Number
    (ee_get (ee_reduceRegion (fullone_image img_idx)
                             ee_Reducer_count rect_polygon 10 1e13%float)
            "constant").

(** Line 121: the query whose answer is the coverage ratio. *)
Definition coverage_ratio_query (img_idx : Z) : ee :=
  ee_divide (valid_pixels_num img_idx) (total_pixels_num img_idx).

(** Line 127. *)
Definition timestamp_query (img_idx : Z) : ee :=
  ee_get (selected_img img_idx) "system:time_start".

(** Line 132: the image handed to the exporter. *)
Definition toa_img (img_idx : Z) : ee :=
  ee_divide (selected_img img_idx) (ee_constant 10000).

(** Line 138. *)
Definition crsTransform : crs_tuple :=
  (resample_resolution args, 0, lon_min args,
   0, - resample_resolution args, lat_max args)%float.

(** Line 141. *)
Definition download_path (date_time_str : string) : string :=
  download_folderpath args ++ "\" ++ "Sentinel2" ++ "_"
    ++ (format_f W 2 (lon_min args) ++ "E_")
    ++ (format_f W 2 (lat_max args) ++ "N_")
    ++ Py.replace ":" "-" (Py.replace " " "_" date_time_str)
    ++ ".tif".

(** Lines 142-149. *)
Definition export_request (img_idx : Z) (date_time_str : string)
  : download_request :=
  {| rq_image         := toa_img img_idx;
     rq_filename      := download_path date_time_str;
     rq_region        := rect_polygon;
     rq_crs           := "EPSG:4326";
     rq_crs_transform := crsTransform;
     rq_resampling    := "bilinear" |}.

(** Lines 127-153: what is done with a scene whose coverage reaches the
    threshold. *)
Definition download_scene (img_idx : Z) : M W unit :=
  timestamp <- getInfo_as_int W (timestamp_query img_idx) ;;
  date_time_str <- strftime W timestamp ;;
  print W ("索引 " ++ Py.str img_idx ++ " 成像时间 " ++ date_time_str
           ++ "，timestamp(ms)=" ++ Py.str timestamp) ;;
  download W (export_request img_idx date_time_str) ;;
  if is_postprocess args
  then Process_Downloaded_Imgs crsTransform (download_path date_time_str)
  else ret tt.

(** Lines 107-157: the body of the loop. *)
Definition scene_step (img_idx : Z) : M W unit :=
  coverage_ratio <- getInfo_as_float W (coverage_ratio_query img_idx) ;;
  print W (">>> 第 " ++ Py.str (img_idx + 1) ++ " 景影像，有效值覆盖率: "
           ++ format_f W 4 coverage_ratio) ;;
  if (coverage_ratio_threshold args <=? coverage_ratio)%float
  then download_scene img_idx
  else ret tt.

(** [Sentinel2_TOA_Download], lines 48-157. *)
Definition Sentinel2_TOA_Download : M W unit :=
  imgs_num <- getInfo_as_int W (ee_size sentinel2_toa_dataset) ;;
  print W (">>> 共 " ++ Py.str imgs_num ++ " 景影像...") ;;
  for_each (Py.range imgs_num) scene_step.

End Script.

(** The same call with another [coverage_ratio_threshold]. *)
Definition with_threshold (a : arguments) (t : float) : arguments :=
  {| lon_min := lon_min a; lon_max := lon_max a;
     lat_min := lat_min a; lat_max := lat_max a;
     start_date_str := start_date_str a; end_date_str := end_date_str a;
     download_folderpath := download_folderpath a;
     bands := bands a;
     coverage_ratio_threshold := t;
     resample_resolution := resample_resolution a;
     is_postprocess := is_postprocess a |}.

(** The same call with another [is_postprocess]. *)
Definition with_postprocess (a : arguments) (b : bool) : arguments :=
  {| lon_min := lon_min a; lon_max := lon_max a;
     lat_min := lat_min a; lat_max := lat_max a;
     start_date_str := start_date_str a; end_date_str := end_date_str a;
     download_folderpath := download_folderpath a;
     bands := bands a;
     coverage_ratio_threshold := coverage_ratio_threshold a;
     resample_resolution := resample_resolution a;
     is_postprocess := b |}.

(* ================================================================= *)
(** ** The calls a run can make *)

(** [emits P m]: every call [m] makes satisfies [P], from any file system
    and whether or not [m] raises. *)
Definition emits {W A} (P : event -> Prop) (m : M W A) : Prop :=
  forall s, Forall P (calls (m s)).

Section CallShapes.
Variables (W : World) (args : arguments).

(** The calls [Sentinel2_TOA_Download] makes: each is one of these. *)
Inductive script_call : event -> Prop :=
| call_print line :
    script_call (ev_print line)
| call_size :
    script_call (ev_getInfo (ee_size (sentinel2_toa_dataset args)))
| call_coverage img_idx :
    script_call (ev_getInfo (coverage_ratio_query args img_idx))
| call_timestamp img_idx :
    script_call (ev_getInfo (timestamp_query args img_idx))
| call_export img_idx date_time_str :
    script_call (ev_download (export_request W args img_idx date_time_str))
| call_read date_time_str :
    is_postprocess args = true ->
    script_call (ev_read (download_path W args date_time_str))
| call_write date_time_str prof data :
    is_postprocess args = true ->
    script_call (ev_write (download_path W args date_time_str) prof data).

End CallShapes.

(** A call to rasterio. *)
Definition is_raster_io (ev : event) : bool :=
  match ev with
  | ev_read _ | ev_write _ _ _ => true
  | _ => false
  end.

(** A coverage query: the only [getInfo] the script makes on a quotient. *)
Definition is_coverage_call (ev : event) : bool :=
  match ev with
  | ev_getInfo (ee_divide _ _) => true
  | _ => false
  end.

(** A call to the exporter. *)
Definition is_download_call (ev : event) : bool :=
  match ev with
  | ev_download _ => true
  | _ => false
  end.

(** The export a scene gets, read off the server's answers alone: none
    unless the coverage query is answered with a ratio that reaches the
    threshold and the timestamp query is answered with a time that can be
    formatted. *)
Definition export_of (W : World) (args : arguments) (img_idx : Z) : list event :=
  match getInfo_float W (coverage_ratio_query args img_idx) with
  | Return r =>
      if (coverage_ratio_threshold args <=? r)%float
      then match getInfo_int W (timestamp_query args img_idx) with
           | Return ts =>
               match strftime_ms W ts with
               | Return d => [ev_download (export_request W args img_idx d)]
               | Raise _ => []
               end
           | Raise _ => []
           end
      else []
  | Raise _ => []
  end.

(** The part of the file name that comes from the acquisition time
    (line 141). *)
Definition date_part (date_time_str : string) : string :=
  Py.replace ":" "-" (Py.replace " " "_" date_time_str).

(** The characters of a string after every [old] has been turned into
    [new]. *)
Definition substitute (old new : ascii) (chars : list ascii) : list ascii :=
  map (fun ch => if ascii_dec old ch then new else ch) chars.

(* ================================================================= *)
(** ** Numbers *)

(** An [int] as a [float] (exact below 2^53). *)
Definition float_of_Z (z : Z) : float :=
  if (z <? 0)%Z
  then (- PrimFloat.of_uint63 (Uint63.of_Z (- z)))%float
  else PrimFloat.of_uint63 (Uint63.of_Z z).

(* ================================================================= *)
(** ** The design the specification words, for comparison *)

Module Design.

(** CoverageEvaluator: the ratio of the pixels of [reference_band] that
    carry a value within [aoi] at [scale] to the pixels of an all-valid
    raster over [aoi] at the same [scale]. *)
Definition coverage_query (scene aoi : ee) (reference_band : string)
                          (scale : Z) : ee :=
  let band := ee_select scene [reference_band] in
  let valid :=
    ee_Number (ee_get (ee_reduceRegion band ee_Reducer_count aoi scale 1e13%float)
                      reference_band) in
  let all_valid :=
    ee_clip (ee_reproject (ee_Image (ee_constant 1))
                          (ee_crs (ee_projection band)) scale) aoi in
  let total :=
    ee_Number (ee_get (ee_reduceRegion all_valid ee_Reducer_count aoi scale
                                       1e13%float)
                      "constant") in
  ee_divide valid total.

(** RasterPostProcessor: the transform after the crop, its origin moved by
    one pixel: [x_origin + x_scale] and [y_origin + y_scale]. *)
Definition corrected_transform (T : Affine) : Affine :=
  {| aff_a := aff_a T; aff_b := aff_b T; aff_c := (aff_c T + aff_a T)%float;
     aff_d := aff_d T; aff_e := aff_e T; aff_f := (aff_f T + aff_e T)%float |}.

(** The error the design raises on a buffer with fewer than three rows or
    columns. *)
Definition BufferTooSmall : exn := "BufferTooSmall".

End Design.

(* ================================================================= *)
(** ** A world for examples *)

(** A catalogue of scenes held in memory, each with the answers the server
    gives about it, and a file system that is a list of named rasters. *)
Module Fake.

Definition store : Type := list (string * (profile * ndarray)).

Fixpoint lookup (path : string) (s : store) : option (profile * ndarray) :=
  match s with
  | [] => None
  | (p, r) :: rest => if String.eqb p path then Some r else lookup path rest
  end.

Record scene := mk_scene {
  sc_ratio     : outcome float;
  sc_timestamp : outcome Z;
  sc_export    : outcome ndarray
}.

(** The index of the scene a query or an image is about. *)
Fixpoint scene_of (e : ee) : option Z :=
  match e with
  | ee_List_get _ index => Some index
  | ee_Image x | ee_clip x _ | ee_select x _ | ee_get x _ | ee_Number x
  | ee_reduceRegion x _ _ _ _ | ee_divide x _ => scene_of x
  | _ => None
  end.

Definition find_scene (scenes : list scene) (e : ee) : option scene :=
  match scene_of e with
  | Some index => if (index <? 0)%Z then None
                  else nth_error scenes (Z.to_nat index)
  | None => None
  end.

Definition answer {A} (scenes : list scene) (field : scene -> outcome A)
                  (e : ee) : outcome A :=
  match find_scene scenes e with
  | Some sc => field sc
  | None => Raise "EEException"
  end.

Definition exported_profile (rq : download_request) (data : ndarray) : profile :=
  {| driver := "GTiff"; p_dtype := dtype data; nodata := None;
     p_width := width data; p_height := height data; count := nbands data;
     crs := from_epsg 4326; transform := Affine_of (rq_crs_transform rq);
     compress := "deflate" |}.

(** [strict]: the writer refuses a raster without rows or columns. *)
Definition world (strict : bool) (scenes : list scene) : World :=
  {| fs := store;
     getInfo_int q :=
       match q with
       | ee_size _ => Return (Z.of_nat (length scenes))
       | _ => answer scenes sc_timestamp q
       end;
     getInfo_float q := answer scenes sc_ratio q;
     download_ee_image rq s :=
       match answer scenes sc_export (rq_image rq) with
       | Return data =>
           (Return tt, (rq_filename rq, (exported_profile rq data, data)) :: s)
       | Raise e => (Raise e, s)
       end;
     rasterio_read path s :=
       match lookup path s with
       | Some (_, data) => Return data
       | None => Raise "RasterioIOError"
       end;
     rasterio_write path prof data s :=
       if strict && ((p_width prof =? 0)%nat || (p_height prof =? 0)%nat)
       then (Raise "RasterioIOError", s)
       else (Return tt, (path, (prof, data)) :: s);
     strftime_ms ts := Return "2025-08-03 10:52:31";
     format_f n x := "0.00" |}.

(** A one-band raster of the given size, pixel [(i, j)] holding
    [10 i + j]. *)
Definition ramp (h w : nat) : ndarray :=
  {| dtype := "float64"; nbands := 1; height := h; width := w;
     planes := [map (fun i => map (fun j => float_of_Z (Z.of_nat (10 * i + j)))
                                  (seq 0 w))
                    (seq 0 h)] |}.

(** A transform with exactly representable entries:
    [(x_scale, 0, x_origin, 0, y_scale, y_origin)]. *)
Definition T0 : crs_tuple := (0.5, 0, 10, 0, -0.5, 20)%float.

(** A file system holding one raster. *)
Definition disk (path : string) (data : ndarray) : store :=
  [(path, (raster_profile data (from_epsg 4326) (Affine_of T0), data))].

(** A scene the server answers about, with its coverage ratio; a scene
    whose coverage query fails. *)
Definition scene_with (ratio : float) : scene :=
  mk_scene (Return ratio) (Return 1754218351000%Z) (Return (ramp 4 5)).

Definition scene_unavailable : scene :=
  mk_scene (Raise "EEException") (Return 1754218351000%Z) (Return (ramp 4 5)).

Definition call : arguments :=
  with_defaults 116.48%float 116.98%float 30.72%float 31.22%float
                "2025-08-01" "2025-08-07" "out".

(** The same call asking for the green and red bands only. *)
Definition call_green_red : arguments :=
  {| lon_min := 116.48%float; lon_max := 116.98%float;
     lat_min := 30.72%float; lat_max := 31.22%float;
     start_date_str := "2025-08-01"; end_date_str := "2025-08-07";
     download_folderpath := "out";
     bands := ["B3"; "B4"];
     coverage_ratio_threshold := 0.99%float;
     resample_resolution := 0.00008983%float;
     is_postprocess := true |}.

End Fake.
(* ================================================================= *)
(** ** Facts about slicing *)

Local Open Scope list_scope.

Section SliceFacts.
Context {A : Type}.
Implicit Types (l : list A) (start stop : option Z).

Lemma bound_range n i d :
  (0 <= n)%Z -> (0 <= d <= n)%Z -> (0 <= Py.bound n i d <= n)%Z.
Proof.
  intros Hn Hd. unfold Py.bound. destruct i as [i|]; [|exact Hd].
  destruct (Z.ltb_spec i 0); lia.
Qed.

Lemma slice_fits start stop n :
  Py.slice_start start n + Py.slice_len start stop n <= n.
Proof.
  unfold Py.slice_start, Py.slice_len.
  pose proof (bound_range start (d := 0%Z) (Nat2Z.is_nonneg n)) as Hs.
  pose proof (bound_range stop (d := Z.of_nat n) (Nat2Z.is_nonneg n)) as He.
  lia.
Qed.

Lemma length_slice start stop l :
  length (Py.slice start stop l) = Py.slice_len start stop (length l).
Proof.
  unfold Py.slice. rewrite length_firstn, length_skipn.
  pose proof (slice_fits start stop (length l)). lia.
Qed.

Lemma nth_error_slice start stop l i :
  nth_error (Py.slice start stop l) i =
  if (i <? Py.slice_len start stop (length l))%nat
  then nth_error l (Py.slice_start start (length l) + i)
  else None.
Proof.
  unfold Py.slice. rewrite nth_error_firstn, nth_error_skipn. reflexivity.
Qed.

Lemma slice_all l : Py.slice None None l = l.
Proof.
  unfold Py.slice, Py.slice_len, Py.slice_start, Py.bound.
  rewrite Z.sub_0_r, Nat2Z.id. simpl. apply firstn_all.
Qed.

Lemma Forall_firstn (P : A -> Prop) n l :
  Forall P l -> Forall P (firstn n l).
Proof.
  intros H. revert n. induction H; intros [|n]; simpl; auto.
Qed.

Lemma Forall_skipn (P : A -> Prop) n l :
  Forall P l -> Forall P (skipn n l).
Proof.
  intros H. revert n. induction H; intros [|n]; simpl; auto.
Qed.

Lemma Forall_slice (P : A -> Prop) start stop l :
  Forall P l -> Forall P (Py.slice start stop l).
Proof.
  intros H. unfold Py.slice. now apply Forall_firstn, Forall_skipn.
Qed.

End SliceFacts.

Ltac slice_arith :=
  unfold Py.slice_len, Py.slice_start, Py.bound;
  repeat match goal with
         | |- context [Z.ltb ?x ?y] => destruct (Z.ltb_spec x y)
         end;
  lia.

(** The slice [1:-1] keeps [n - 2] entries, starting at index 1; on fewer
    than three entries it keeps nothing. *)
Lemma slice_len_inner n : Py.slice_len (Some 1%Z) (Some (-1)%Z) n = n - 2.
Proof. slice_arith. Qed.

Lemma slice_start_inner n : 1 <= n -> Py.slice_start (Some 1%Z) n = 1.
Proof. intros H. slice_arith. Qed.

Lemma slice_len_all n : Py.slice_len None None n = n.
Proof. unfold Py.slice_len, Py.bound. lia. Qed.

(* ================================================================= *)
(** ** The border crop *)

Lemma crop_border_shape a :
  shape (crop_border a) = (nbands a, height a - 2, width a - 2).
Proof.
  unfold shape, crop_border, getitem; simpl.
  now rewrite slice_len_all, !slice_len_inner.
Qed.

Lemma crop_border_nbands a : nbands (crop_border a) = nbands a.
Proof. apply slice_len_all. Qed.

Lemma crop_border_height a : height (crop_border a) = height a - 2.
Proof. apply slice_len_inner. Qed.

Lemma crop_border_width a : width (crop_border a) = width a - 2.
Proof. apply slice_len_inner. Qed.

Lemma crop_border_well_shaped a :
  well_shaped a -> well_shaped (crop_border a).
Proof.
  intros [Hb Hp]. unfold well_shaped, crop_border, getitem; simpl.
  rewrite slice_all, slice_len_all, length_map. split; [exact Hb|].
  apply Forall_map. eapply Forall_impl; [|exact Hp].
  intros plane [Hh Hrows]; simpl.
  rewrite length_map, length_slice, Hh. split; [reflexivity|].
  apply Forall_map, Forall_slice. eapply Forall_impl; [|exact Hrows].
  intros row Hw; simpl. now rewrite length_slice, Hw.
Qed.

Lemma nth_error_inner {A} (l : list A) i :
  i < length l - 2 ->
  nth_error (Py.slice (Some 1%Z) (Some (-1)%Z) l) i = nth_error l (S i).
Proof.
  intros Hi. rewrite nth_error_slice, slice_len_inner.
  destruct (Nat.ltb_spec i (length l - 2)); [|lia].
  rewrite slice_start_inner by lia. reflexivity.
Qed.

Lemma crop_border_pixel a k i j :
  well_shaped a -> i < height a - 2 -> j < width a - 2 ->
  pixel (crop_border a) k i j = pixel a k (S i) (S j).
Proof.
  intros [_ Hp] Hi Hj. unfold pixel, crop_border, getitem; cbn [planes fst snd].
  rewrite slice_all, nth_error_map.
  destruct (nth_error (planes a) k) as [plane|] eqn:Hk; cbn [option_map];
    [|reflexivity].
  rewrite Forall_forall in Hp.
  destruct (Hp plane (nth_error_In _ _ Hk)) as [Hh Hrows].
  rewrite nth_error_map, nth_error_inner by lia.
  destruct (nth_error plane (S i)) as [row|] eqn:Hrow; cbn [option_map];
    [|reflexivity].
  rewrite Forall_forall in Hrows.
  rewrite nth_error_inner; [reflexivity|].
  rewrite (Hrows row (nth_error_In _ _ Hrow)). exact Hj.
Qed.

(* ================================================================= *)
(** ** String replacement *)

Lemma prefix_split old s :
  String.prefix old s = true -> exists t, s = (old ++ t)%string.
Proof.
  revert s. induction old as [|c old IH]; intros s H.
  - exists s. reflexivity.
  - destruct s as [|c' s]; simpl in H; [discriminate|].
    destruct (ascii_dec c c') as [->|]; [|discriminate].
    destruct (IH s H) as [t ->]. exists t. reflexivity.
Qed.

Lemma replace_from_skip old new p t :
  Py.replace_from old new (String.length p) (p ++ t)%string
  = Py.replace_from old new 0 t.
Proof.
  induction p as [|c p IH]; simpl.
  - destruct t; reflexivity.
  - exact IH.
Qed.

Lemma string_length_app p t :
  String.length (p ++ t)%string = String.length p + String.length t.
Proof. induction p as [|c p IH]; simpl; [reflexivity|now rewrite IH]. Qed.

(** Replacing a non-empty text by itself changes nothing: line 43 writes to
    the path it read from. *)
Lemma replace_same old s : old <> "" -> Py.replace old old s = s.
Proof.
  intros Hne. unfold Py.replace.
  remember (String.length s) as n eqn:Hn.
  assert (Hle : String.length s <= n) by lia. clear Hn.
  revert s Hle. induction n as [|n IH]; intros s Hle.
  - destruct s; [reflexivity|simpl in Hle; lia].
  - destruct s as [|c rest]; [reflexivity|].
    cbn [Py.replace_from].
    destruct (String.prefix old (String c rest)) eqn:Hp.
    + destruct (prefix_split _ _ Hp) as [t Ht].
      destruct old as [|c' old']; [congruence|].
      simpl in Ht. injection Ht as -> ->.
      cbn [String.length]. rewrite Nat.sub_succ, Nat.sub_0_r.
      rewrite replace_from_skip, IH; [reflexivity|].
      simpl in Hle. rewrite string_length_app in Hle. lia.
    + rewrite IH; [reflexivity|]. simpl in Hle. lia.
Qed.

(* ================================================================= *)
(** ** Running the monad *)

Section Runs.
Variable W : World.

Lemma bind_Return {A B} (m : M W A) (k : A -> M W B) s a :
  value (m s) = Return a ->
  bind m k s =
  mk_result (value (k a (files (m s)))) (files (k a (files (m s))))
            (calls (m s) ++ calls (k a (files (m s)))).
Proof. intros H. unfold bind. now rewrite H. Qed.

Lemma bind_Raise {A B} (m : M W A) (k : A -> M W B) s e :
  value (m s) = Raise e ->
  bind m k s = mk_result (Raise e) (files (m s)) (calls (m s)).
Proof. intros H. unfold bind. now rewrite H. Qed.

Lemma calls_bind_prefix {A B} (m : M W A) (k : A -> M W B) s :
  exists rest, calls (bind m k s) = calls (m s) ++ rest.
Proof.
  unfold bind. destruct (value (m s)); simpl.
  - eexists; reflexivity.
  - exists []. now rewrite app_nil_r.
Qed.

(** A loop whose body raises at [x] stops there: what the elements before
    [x] did stays done, and the elements after [x] are never reached. *)
Lemma for_each_Raise (body : Z -> M W unit) pre x post s e :
  value (for_each pre body s) = Return tt ->
  value (body x (files (for_each pre body s))) = Raise e ->
  for_each (pre ++ x :: post) body s =
  mk_result (Raise e)
            (files (body x (files (for_each pre body s))))
            (calls (for_each pre body s)
             ++ calls (body x (files (for_each pre body s)))).
Proof.
  revert s. induction pre as [|y pre IH]; intros s Hpre Hx; simpl in *.
  - now rewrite (bind_Raise _ _ _ Hx).
  - unfold bind in Hpre, Hx |- *.
    destruct (value (body y s)) as [[]|e'] eqn:Hy; simpl in Hpre, Hx |- *;
      [|discriminate].
    rewrite (IH _ Hpre Hx). simpl. now rewrite app_assoc.
Qed.

(** *** Call invariants *)

Variable P : event -> Prop.

Lemma emits_ret {A} (a : A) : emits P (@ret W A a).
Proof. intros s. constructor. Qed.

Lemma emits_bind {A B} (m : M W A) (k : A -> M W B) :
  emits P m -> (forall a, emits P (k a)) -> emits P (bind m k).
Proof.
  intros Hm Hk s. unfold bind.
  destruct (value (m s)); simpl; [|apply Hm].
  apply Forall_app. split; [apply Hm|apply Hk].
Qed.

Lemma emits_for_each l (body : Z -> M W unit) :
  (forall x, emits P (body x)) -> emits P (for_each l body).
Proof.
  intros Hb. induction l as [|x l IH]; simpl.
  - apply emits_ret.
  - apply emits_bind; auto.
Qed.

Lemma emits_if {A} (b : bool) (m1 m2 : M W A) :
  (b = true -> emits P m1) -> (b = false -> emits P m2) ->
  emits P (if b then m1 else m2).
Proof. destruct b; auto. Qed.

Lemma emits_print line : P (ev_print line) -> emits P (print W line).
Proof. intros H s. simpl. auto. Qed.

Lemma emits_getInfo_as_int q : P (ev_getInfo q) -> emits P (getInfo_as_int W q).
Proof. intros H s. simpl. auto. Qed.

Lemma emits_getInfo_as_float q :
  P (ev_getInfo q) -> emits P (getInfo_as_float W q).
Proof. intros H s. simpl. auto. Qed.

Lemma emits_strftime ts : emits P (strftime W ts).
Proof. intros s. constructor. Qed.

Lemma emits_download rq : P (ev_download rq) -> emits P (download W rq).
Proof.
  intros H s. unfold download. destruct (download_ee_image W rq s). simpl. auto.
Qed.

Lemma emits_read_raster path : P (ev_read path) -> emits P (read_raster W path).
Proof. intros H s. simpl. auto. Qed.

Lemma emits_write_raster path prof data :
  P (ev_write path prof data) -> emits P (write_raster W path prof data).
Proof.
  intros H s. unfold write_raster.
  destruct (rasterio_write W path prof data s). simpl. auto.
Qed.

End Runs.

(* ================================================================= *)
(** ** What the two functions do *)

Section ScriptFacts.
Variable W : World.

(** Post-processing reads the file, crops the array and hands it to the
    writer under the same path: its outcome is the writer's. *)
Lemma Process_Downloaded_Imgs_run T path s a :
  rasterio_read W path s = Return a ->
  let out := crop_border a in
  let prof := raster_profile out (from_epsg 4326) (Affine_of T) in
  Process_Downloaded_Imgs W T path s =
  mk_result (fst (rasterio_write W path prof out s))
            (snd (rasterio_write W path prof out s))
            [ev_read path; ev_write path prof out].
Proof.
  intros Hr out prof. unfold Process_Downloaded_Imgs.
  rewrite bind_Return with (a := a) by exact Hr.
  rewrite replace_same by discriminate.
  unfold write_raster, read_raster; simpl. fold out. fold prof.
  destruct (rasterio_write W path prof out s); reflexivity.
Qed.

Lemma Process_Downloaded_Imgs_unreadable T path s e :
  rasterio_read W path s = Raise e ->
  Process_Downloaded_Imgs W T path s = mk_result (Raise e) s [ev_read path].
Proof.
  intros Hr. unfold Process_Downloaded_Imgs.
  now rewrite bind_Raise with (e := e) by exact Hr.
Qed.

Variable args : arguments.

Lemma download_scene_calls img_idx :
  emits (script_call W args) (download_scene W args img_idx).
Proof.
  unfold download_scene.
  apply emits_bind; [apply emits_getInfo_as_int; constructor|intros ts].
  apply emits_bind; [apply emits_strftime|intros d].
  apply emits_bind; [apply emits_print; constructor|intros _].
  apply emits_bind; [apply emits_download; constructor|intros _].
  apply emits_if; intros Hpost; [|apply emits_ret].
  unfold Process_Downloaded_Imgs.
  apply emits_bind; [apply emits_read_raster; now constructor|intros data].
  rewrite replace_same by discriminate.
  apply emits_write_raster. now constructor.
Qed.

Lemma scene_step_calls img_idx :
  emits (script_call W args) (scene_step W args img_idx).
Proof.
  unfold scene_step.
  apply emits_bind; [apply emits_getInfo_as_float; constructor|intros r].
  apply emits_bind; [apply emits_print; constructor|intros _].
  apply emits_if; intros _; [apply download_scene_calls|apply emits_ret].
Qed.

Lemma Sentinel2_TOA_Download_calls :
  emits (script_call W args) (Sentinel2_TOA_Download W args).
Proof.
  unfold Sentinel2_TOA_Download.
  apply emits_bind; [apply emits_getInfo_as_int; constructor|intros n].
  apply emits_bind; [apply emits_print; constructor|intros _].
  apply emits_for_each. exact scene_step_calls.
Qed.

(** One turn of the loop, once the server has answered the coverage
    query. *)
Lemma scene_step_run img_idx s r :
  getInfo_float W (coverage_ratio_query args img_idx) = Return r ->
  let next :=
    (if (coverage_ratio_threshold args <=? r)%float
     then download_scene W args img_idx else ret tt) s in
  scene_step W args img_idx s =
  mk_result (value next) (files next)
    (ev_getInfo (coverage_ratio_query args img_idx)
     :: ev_print (">>> 第 " ++ Py.str (img_idx + 1) ++ " 景影像，有效值覆盖率: "
                  ++ format_f W 4 r)%string
     :: calls next).
Proof.
  intros Hr next. unfold scene_step, bind, getInfo_as_float, print; simpl.
  rewrite Hr; simpl. reflexivity.
Qed.

(** The accepted branch, once the timestamp is known. *)
Lemma download_scene_run img_idx s ts d :
  getInfo_int W (timestamp_query args img_idx) = Return ts ->
  strftime_ms W ts = Return d ->
  let rq := export_request W args img_idx d in
  let exported := download_ee_image W rq s in
  let post :=
    (if is_postprocess args
     then Process_Downloaded_Imgs W (crsTransform args) (download_path W args d)
     else ret tt) (snd exported) in
  let line := ("索引 " ++ Py.str img_idx ++ " 成像时间 " ++ d
               ++ "，timestamp(ms)=" ++ Py.str ts)%string in
  download_scene W args img_idx s =
  match fst exported with
  | Return _ =>
      mk_result (value post) (files post)
        (ev_getInfo (timestamp_query args img_idx) :: ev_print line
         :: ev_download rq :: calls post)
  | Raise e =>
      mk_result (Raise e) (snd exported)
        [ev_getInfo (timestamp_query args img_idx); ev_print line;
         ev_download rq]
  end.
Proof.
  intros Hts Hd rq exported post line.
  unfold download_scene, bind, getInfo_as_int, strftime, print, download; simpl.
  rewrite Hts; simpl. rewrite Hd; simpl.
  fold rq. subst post exported.
  destruct (download_ee_image W rq s) as [[[]|e] s']; reflexivity.
Qed.

(** What the accepted branch does first is to ask for the timestamp. *)
Lemma download_scene_first_call img_idx s :
  exists rest,
    calls (download_scene W args img_idx s)
    = ev_getInfo (timestamp_query args img_idx) :: rest.
Proof.
  unfold download_scene.
  destruct (calls_bind_prefix
              (getInfo_as_int W (timestamp_query args img_idx))
              (fun timestamp =>
                 date_time_str <- strftime W timestamp ;;
                 print W ("索引 " ++ Py.str img_idx ++ " 成像时间 "
                          ++ date_time_str ++ "，timestamp(ms)="
                          ++ Py.str timestamp) ;;
                 download W (export_request W args img_idx date_time_str) ;;
                 if is_postprocess args
                 then Process_Downloaded_Imgs W (crsTransform args)
                                              (download_path W args date_time_str)
                 else ret tt) s) as [rest Hrest].
  exists rest. exact Hrest.
Qed.

Lemma Process_Downloaded_Imgs_calls T path :
  emits (fun ev => is_raster_io ev = true) (Process_Downloaded_Imgs W T path).
Proof.
  unfold Process_Downloaded_Imgs.
  apply emits_bind; [now apply emits_read_raster|intros data].
  now apply emits_write_raster.
Qed.

(** An export is requested for a scene exactly when the server answers the
    timestamp query and the timestamp can be formatted; the request is then
    [export_request]. *)
Lemma download_scene_downloads img_idx s rq :
  In (ev_download rq) (calls (download_scene W args img_idx s)) <->
  exists ts d,
    getInfo_int W (timestamp_query args img_idx) = Return ts /\
    strftime_ms W ts = Return d /\
    rq = export_request W args img_idx d.
Proof.
  split.
  - destruct (getInfo_int W (timestamp_query args img_idx)) as [ts|e] eqn:Hts.
    2:{ unfold download_scene, bind, getInfo_as_int; simpl. rewrite Hts; simpl.
        intros [H|[]]; discriminate H. }
    destruct (strftime_ms W ts) as [d|e] eqn:Hd.
    2:{ unfold download_scene, bind, getInfo_as_int, strftime; simpl.
        rewrite Hts; simpl. rewrite Hd; simpl.
        intros [H|[]]; discriminate H. }
    rewrite (download_scene_run img_idx s Hts Hd).
    assert (Hpost : forall m : M W unit,
               m = (if is_postprocess args
                    then Process_Downloaded_Imgs W (crsTransform args)
                                                 (download_path W args d)
                    else ret tt) ->
               forall s', ~ In (ev_download rq) (calls (m s'))).
    { intros m -> s' Hin.
      assert (Hio : emits (fun ev => is_raster_io ev = true)
                          (if is_postprocess args
                           then Process_Downloaded_Imgs W (crsTransform args)
                                                        (download_path W args d)
                           else @ret W unit tt)).
      { apply emits_if; intros _;
          [apply Process_Downloaded_Imgs_calls|apply emits_ret]. }
      specialize (Hio s'). rewrite Forall_forall in Hio.
      specialize (Hio _ Hin). discriminate Hio. }
    destruct (fst (download_ee_image W (export_request W args img_idx d) s));
      simpl; intros [H|[H|[H|H]]]; try discriminate H.
    + injection H as <-. now exists ts, d.
    + exfalso. eapply Hpost; [reflexivity|exact H].
    + injection H as <-. now exists ts, d.
    + destruct H.
  - intros (ts & d & Hts & Hd & ->).
    rewrite (download_scene_run img_idx s Hts Hd).
    destruct (fst (download_ee_image W (export_request W args img_idx d) s));
      simpl; auto.
Qed.

(** What one turn of the loop does when the coverage query fails. *)
Lemma scene_step_unavailable img_idx s e :
  getInfo_float W (coverage_ratio_query args img_idx) = Raise e ->
  scene_step W args img_idx s =
  mk_result (Raise e) s [ev_getInfo (coverage_ratio_query args img_idx)].
Proof.
  intros Hr. unfold scene_step, bind, getInfo_as_float; simpl.
  now rewrite Hr.
Qed.

Lemma scene_step_downloads img_idx s rq :
  In (ev_download rq) (calls (scene_step W args img_idx s)) <->
  exists r ts d,
    getInfo_float W (coverage_ratio_query args img_idx) = Return r /\
    (coverage_ratio_threshold args <=? r)%float = true /\
    getInfo_int W (timestamp_query args img_idx) = Return ts /\
    strftime_ms W ts = Return d /\
    rq = export_request W args img_idx d.
Proof.
  split.
  - destruct (getInfo_float W (coverage_ratio_query args img_idx))
      as [r|e] eqn:Hr.
    2:{ rewrite (scene_step_unavailable img_idx s Hr). simpl.
        intros [H|[]]; discriminate H. }
    rewrite (scene_step_run img_idx s Hr). simpl.
    intros [H|[H|H]]; try discriminate H.
    destruct (coverage_ratio_threshold args <=? r)%float eqn:Hacc;
      [|destruct H].
    apply download_scene_downloads in H. destruct H as (ts & d & H).
    now exists r, ts, d.
  - intros (r & ts & d & Hr & Hacc & H).
    rewrite (scene_step_run img_idx s Hr). simpl. rewrite Hacc.
    right; right. apply download_scene_downloads. now exists ts, d.
Qed.

End ScriptFacts.

(* ================================================================= *)
(** ** Comparing floats *)

Lemma SFleb_trans x y z :
  SFleb x y = true -> SFleb y z = true -> SFleb x z = true.
Proof.
  unfold SFleb, SFcompare.
  destruct x as [sx|sx| |sx mx ex], y as [sy|sy| |sy my ey],
           z as [sz|sz| |sz mz ez];
    try discriminate; try reflexivity;
    repeat match goal with s : bool |- _ => destruct s end;
    try discriminate; try reflexivity;
    change (Pos.compare_cont Eq) with Pos.compare;
    destruct (Z.compare_spec ex ey), (Z.compare_spec ey ez),
             (Z.compare_spec ex ez);
    try discriminate; try reflexivity; try lia;
    destruct (Pos.compare_spec mx my), (Pos.compare_spec my mz),
             (Pos.compare_spec mx mz);
    simpl; try discriminate; try reflexivity; try lia.
Qed.

(** [<=] on floats is transitive (a NaN is below and above nothing). *)
Lemma float_leb_trans (x y z : float) :
  (x <=? y)%float = true -> (y <=? z)%float = true -> (x <=? z)%float = true.
Proof. rewrite !FloatAxioms.leb_spec. apply SFleb_trans. Qed.

(** Two floats that are equal for [==] are in [<=]. *)
Lemma float_eqb_leb (x y : float) :
  (x =? y)%float = true -> (x <=? y)%float = true.
Proof.
  rewrite FloatAxioms.eqb_spec, FloatAxioms.leb_spec. unfold SFeqb, SFleb.
  destruct (SFcompare _ _) as [[]|]; congruence.
Qed.

(* ================================================================= *)
(** ** Post-processing: the claims *)

(** C7.  On a buffer of shape [(b, h, w)] with [h >= 3] and [w >= 3],
    post-processing removes exactly one row and one column at each of the four
    edges of every band plane: the buffer it writes has shape
    [(b, h - 2, w - 2)], and its pixel [(i, j)] is pixel [(i + 1, j + 1)] of
    the input, in every band. *)
Theorem crop_removes_one_pixel_border
    (W : World) (T : crs_tuple) (path : string) (s : fs W) (a : ndarray) :
  rasterio_read W path s = Return a ->
  well_shaped a -> 3 <= height a -> 3 <= width a ->
  let out := crop_border a in
  let prof := raster_profile out (from_epsg 4326) (Affine_of T) in
  calls (Process_Downloaded_Imgs W T path s)
    = [ev_read path; ev_write path prof out] /\
  well_shaped out /\
  (nbands out = nbands a /\ height out + 2 = height a /\ width out + 2 = width a) /\
  (count prof = nbands a /\ p_height prof + 2 = height a
   /\ p_width prof + 2 = width a) /\
  (forall k i j, i < height out -> j < width out ->
                 pixel out k i j = pixel a k (S i) (S j)).
Proof.
  intros Hread Hwf Hh Hw out prof.
  pose proof (crop_border_nbands a) as Hb.
  pose proof (crop_border_height a) as Hh'.
  pose proof (crop_border_width a) as Hw'.
  split; [|split; [|split; [|split]]].
  - now rewrite Process_Downloaded_Imgs_run with (a := a).
  - apply crop_border_well_shaped, Hwf.
  - fold out in Hb, Hh', Hw'. lia.
  - unfold prof, raster_profile, shape; cbn [count p_height p_width fst].
    fold out in Hb, Hh', Hw'. lia.
  - intros k i j Hi Hj. fold out in Hh', Hw'.
    apply crop_border_pixel; [exact Hwf|lia|lia].
Qed.

Lemma ramp_well_shaped : well_shaped (Fake.ramp 4 5).
Proof. split; [reflexivity|]. repeat constructor. Qed.

Lemma crop_removes_one_pixel_border_witness :
  let a := Fake.ramp 4 5 in
  (3 <= height a /\ 3 <= width a) /\
  shape (crop_border a) = (1, 2, 3) /\
  pixel (crop_border a) 0 0 0 = pixel a 0 1 1.
Proof.
  intros a.
  destruct (@crop_removes_one_pixel_border
              (Fake.world true []) Fake.T0 "x.tif" (Fake.disk "x.tif" a) a)
    as (_ & _ & _ & _ & Hpix).
  - reflexivity.
  - exact ramp_well_shaped.
  - vm_compute; lia.
  - vm_compute; lia.
  - split; [vm_compute; lia|]. split; [reflexivity|].
    apply Hpix; vm_compute; lia.
Defined.

(** C2, as the code has it.  There is no size check and no error of the
    function's own: on a buffer with fewer than three rows or columns the
    file is read, the crop leaves an array without rows or without columns,
    and that array goes to the writer; the call ends as the writer ends. *)
Theorem small_buffer_goes_to_writer
    (W : World) (T : crs_tuple) (path : string) (s : fs W) (a : ndarray) :
  rasterio_read W path s = Return a ->
  height a < 3 \/ width a < 3 ->
  let out := crop_border a in
  let prof := raster_profile out (from_epsg 4326) (Affine_of T) in
  let r := Process_Downloaded_Imgs W T path s in
  (height out = 0 \/ width out = 0) /\
  (p_height prof = 0 \/ p_width prof = 0) /\
  calls r = [ev_read path; ev_write path prof out] /\
  (value r, files r) = rasterio_write W path prof out s.
Proof.
  intros Hread Hsmall out prof r.
  pose proof (crop_border_height a) as Hh.
  pose proof (crop_border_width a) as Hw. fold out in Hh, Hw.
  assert (Hout : height out = 0 \/ width out = 0) by lia.
  split; [exact Hout|]. split; [exact Hout|].
  unfold r. rewrite Process_Downloaded_Imgs_run with (a := a) by exact Hread.
  fold out prof. split; [reflexivity|]. simpl.
  now destruct (rasterio_write W path prof out s).
Qed.

Lemma small_buffer_goes_to_writer_witness :
  let w := Fake.world true [] in
  let a := Fake.ramp 2 2 in
  let r := Process_Downloaded_Imgs w Fake.T0 "x.tif" (Fake.disk "x.tif" a) in
  (height a < 3 \/ width a < 3) /\
  (value r, files r) = (Raise "RasterioIOError", Fake.disk "x.tif" a).
Proof.
  intros w a r.
  destruct (@small_buffer_goes_to_writer w Fake.T0 "x.tif" (Fake.disk "x.tif" a) a)
    as (_ & _ & _ & Hend).
  - reflexivity.
  - left. vm_compute. lia.
  - split; [left; vm_compute; lia|]. exact Hend.
Defined.

(** C2 fails as stated: a 2 x 2 buffer does not make the function raise
    [BufferTooSmall], nor stop before any work.  The file is read and an
    empty array is handed to the writer; with a writer that refuses empty
    rasters the call ends with the writer's error, and with one that accepts
    them it returns normally and leaves a raster without pixels. *)
Lemma small_buffer_not_rejected :
  let a := Fake.ramp 2 2 in
  let s := Fake.disk "x.tif" a in
  let empty := mk_ndarray "float64" 1 0 0 [[]] in
  let prof := raster_profile empty (from_epsg 4326) (Affine_of Fake.T0) in
  let strict := Process_Downloaded_Imgs (Fake.world true []) Fake.T0 "x.tif" s in
  let lenient := Process_Downloaded_Imgs (Fake.world false []) Fake.T0 "x.tif" s in
  (height a < 3 /\ width a < 3) /\
  value strict <> Raise Design.BufferTooSmall /\
  value strict = Raise "RasterioIOError" /\
  calls strict = [ev_read "x.tif"; ev_write "x.tif" prof empty] /\
  value lenient = Return tt /\
  Fake.lookup "x.tif" (files lenient) = Some (prof, empty).
Proof.
  repeat split; try (vm_compute; lia); try reflexivity. discriminate.
Qed.

(** C1, as the code has it.  The transform written with the cropped buffer
    is the transform it was given, unchanged: its origin stays [(ox, oy)],
    so pixel (0, 0) of the cropped buffer is mapped where [T] maps pixel
    (0, 0) of the original buffer. *)
Theorem written_transform_is_unchanged
    (W : World) (sx b ox d sy oy : float) (path : string) (s : fs W)
    (a : ndarray) :
  rasterio_read W path s = Return a ->
  let T := (sx, b, ox, d, sy, oy) in
  exists prof,
    calls (Process_Downloaded_Imgs W T path s)
      = [ev_read path; ev_write path prof (crop_border a)] /\
    transform prof = Affine_of T /\
    origin (transform prof) = (ox, oy) /\
    pixel_to_geo (transform prof) 0 0 = pixel_to_geo (Affine_of T) 0 0.
Proof.
  intros Hread T.
  exists (raster_profile (crop_border a) (from_epsg 4326) (Affine_of T)).
  rewrite Process_Downloaded_Imgs_run with (a := a) by exact Hread.
  repeat split.
Qed.

Lemma written_transform_is_unchanged_witness :
  exists prof,
    calls (Process_Downloaded_Imgs (Fake.world true []) Fake.T0 "x.tif"
                                   (Fake.disk "x.tif" (Fake.ramp 4 5)))
      = [ev_read "x.tif"; ev_write "x.tif" prof (crop_border (Fake.ramp 4 5))] /\
    transform prof = Affine_of Fake.T0 /\
    origin (transform prof) = (10, 20)%float /\
    pixel_to_geo (transform prof) 0 0 = pixel_to_geo (Affine_of Fake.T0) 0 0.
Proof.
  apply (@written_transform_is_unchanged
           (Fake.world true []) 0.5 0 10 0 (-0.5) 20 "x.tif"
           (Fake.disk "x.tif" (Fake.ramp 4 5)) (Fake.ramp 4 5)).
  reflexivity.
Defined.

(** C1 fails as stated: with [T = (0.5, 0, 10, 0, -0.5, 20)] the transform
    written with the cropped 4 x 5 buffer has origin (10, 20), not
    (10.5, 19.5); through it, pixel (0, 0) of the cropped buffer lands on
    (10, 20), while [T] maps pixel (1, 1) of the original to (10.5, 19.5). *)
Lemma written_origin_not_shifted :
  let a := Fake.ramp 4 5 in
  let T := Affine_of Fake.T0 in
  exists prof,
    calls (Process_Downloaded_Imgs (Fake.world true []) Fake.T0 "x.tif"
                                   (Fake.disk "x.tif" a))
      = [ev_read "x.tif"; ev_write "x.tif" prof (crop_border a)] /\
    origin (transform prof) = (10, 20)%float /\
    origin (Design.corrected_transform T) = (10.5, 19.5)%float /\
    origin (transform prof) <> origin (Design.corrected_transform T) /\
    pixel_to_geo (transform prof) 0 0 = (10, 20)%float /\
    pixel_to_geo T 1 1 = (10.5, 19.5)%float /\
    pixel_to_geo (transform prof) 0 0 <> pixel_to_geo T 1 1.
Proof.
  intros a T.
  exists (raster_profile (crop_border a) (from_epsg 4326) T).
  repeat split; try reflexivity.
  - intros H. apply (f_equal (fun p => (fst p =? 10)%float)) in H.
    vm_compute in H. discriminate.
  - intros H. apply (f_equal (fun p => (fst p =? 10)%float)) in H.
    vm_compute in H. discriminate.
Qed.

(* ================================================================= *)
(** ** Scene selection: the claims *)

(** C3, as the code has it.  The coverage query always counts the pixels
    of the fixed band B2, whatever [bands] is: every query a run sends to
    the server is the size of the collection, the design's coverage query
    with reference band B2 and scale 10, or a scene's timestamp.  B2 is the
    first entry of the default [bands]. *)
Theorem coverage_reference_band_is_B2
    (W : World) (args : arguments) (s : fs W) (q : ee) :
  In (ev_getInfo q) (calls (Sentinel2_TOA_Download W args s)) ->
  (q = ee_size (sentinel2_toa_dataset args) \/
   (exists img_idx,
       q = Design.coverage_query (selected_img args img_idx) (rect_polygon args)
                                 "B2" 10) \/
   (exists img_idx, q = timestamp_query args img_idx)) /\
  (forall lon_min lon_max lat_min lat_max start_date end_date folder,
      hd_error (bands (with_defaults lon_min lon_max lat_min lat_max
                                     start_date end_date folder)) = Some "B2").
Proof.
  intros Hin. split; [|reflexivity].
  pose proof (Sentinel2_TOA_Download_calls W args s) as Hall.
  rewrite Forall_forall in Hall. specialize (Hall _ Hin).
  inversion Hall; subst.
  - now left.
  - right; left. exists img_idx. reflexivity.
  - right; right. exists img_idx. reflexivity.
Qed.

Lemma coverage_reference_band_is_B2_witness :
  let w := Fake.world true [Fake.scene_with 0.5] in
  let q := coverage_ratio_query Fake.call_green_red 0 in
  In (ev_getInfo q) (calls (Sentinel2_TOA_Download w Fake.call_green_red [])) /\
  (q = ee_size (sentinel2_toa_dataset Fake.call_green_red) \/
   (exists img_idx,
       q = Design.coverage_query (selected_img Fake.call_green_red img_idx)
                                 (rect_polygon Fake.call_green_red) "B2" 10) \/
   (exists img_idx, q = timestamp_query Fake.call_green_red img_idx)).
Proof.
  intros w q.
  assert (Hin : In (ev_getInfo q)
                   (calls (Sentinel2_TOA_Download w Fake.call_green_red [])))
    by (right; right; left; reflexivity).
  split; [exact Hin|].
  exact (proj1 (@coverage_reference_band_is_B2 w Fake.call_green_red [] q Hin)).
Defined.

(** C3 fails as stated: with [bands = ['B3', 'B4']] the first entry is B3,
    yet the coverage query sent for the first scene is the one with
    reference band B2; the query with reference band B3 is never sent. *)
Lemma reference_band_not_first_band :
  let args := Fake.call_green_red in
  let w := Fake.world true [Fake.scene_with 0.5] in
  let sent := calls (Sentinel2_TOA_Download w args []) in
  let query band :=
    Design.coverage_query (selected_img args 0) (rect_polygon args) band 10 in
  hd_error (bands args) = Some "B3" /\
  In (ev_getInfo (query "B2")) sent /\
  ~ In (ev_getInfo (query "B3")) sent.
Proof.
  intros args w sent query. split; [reflexivity|]. split.
  - right; right; left; reflexivity.
  - intros [H|[H|[H|[H|[]]]]]; discriminate H.
Qed.

(** C4.  Once the server has answered the coverage query of a scene with
    the ratio [r], the scene is accepted (the script goes on to fetch its
    timestamp and to request its export) if and only if
    [r >= coverage_ratio_threshold]; a ratio equal to the threshold is
    accepted. *)
Theorem accepted_iff_coverage_reaches_threshold
    (W : World) (args : arguments) (img_idx : Z) (s : fs W) (r : float) :
  getInfo_float W (coverage_ratio_query args img_idx) = Return r ->
  let thr := coverage_ratio_threshold args in
  let out := scene_step W args img_idx s in
  (In (ev_getInfo (timestamp_query args img_idx)) (calls out)
   <-> (thr <=? r)%float = true) /\
  ((exists rq, In (ev_download rq) (calls out)) -> (thr <=? r)%float = true) /\
  ((thr <=? r)%float = true ->
   forall ts d,
     getInfo_int W (timestamp_query args img_idx) = Return ts ->
     strftime_ms W ts = Return d ->
     In (ev_download (export_request W args img_idx d)) (calls out)) /\
  ((thr <=? r)%float = false ->
   value out = Return tt /\ files out = s /\
   forall ev, In ev (calls out) ->
              ev = ev_getInfo (coverage_ratio_query args img_idx)
              \/ exists line, ev = ev_print line) /\
  ((thr =? r)%float = true -> (thr <=? r)%float = true).
Proof.
  intros Hr thr out. repeat split.
  - unfold out. rewrite scene_step_run with (r := r) by exact Hr. simpl. fold thr.
    intros [H|[H|H]]; try discriminate H.
    destruct (thr <=? r)%float; [reflexivity|destruct H].
  - intros Hacc. unfold out. rewrite scene_step_run with (r := r) by exact Hr.
    simpl. fold thr. rewrite Hacc. right; right.
    destruct (download_scene_first_call W args img_idx s) as [rest ->].
    now left.
  - intros [rq Hin]. apply scene_step_downloads in Hin.
    destruct Hin as (r' & ts & d & Hr' & Hacc & _).
    rewrite Hr in Hr'. injection Hr' as <-. exact Hacc.
  - intros Hacc ts d Hts Hd. apply scene_step_downloads.
    now exists r, ts, d.
  - unfold out. rewrite scene_step_run with (r := r) by exact Hr. simpl.
    fold thr. now rewrite H.
  - unfold out. rewrite scene_step_run with (r := r) by exact Hr. simpl.
    fold thr. now rewrite H.
  - unfold out. rewrite scene_step_run with (r := r) by exact Hr. simpl.
    fold thr. rewrite H. simpl.
    intros ev [<-|[<-|[]]]; [now left|right; eexists; reflexivity].
  - apply float_eqb_leb.
Qed.

Lemma accepted_iff_coverage_reaches_threshold_witness :
  let w := Fake.world true [Fake.scene_with 0.99] in
  let at_threshold := scene_step w Fake.call 0 [] in
  let above := scene_step w (with_threshold Fake.call 0.991) 0 [] in
  getInfo_float w (coverage_ratio_query Fake.call 0) = Return 0.99%float /\
  In (ev_download (export_request w Fake.call 0 "2025-08-03 10:52:31"))
     (calls at_threshold) /\
  (value above = Return tt /\ files above = []).
Proof.
  intros w at_threshold above.
  split; [reflexivity|]. split.
  - destruct (@accepted_iff_coverage_reaches_threshold
                w Fake.call 0 [] 0.99%float eq_refl)
      as (_ & _ & Hacc & _ & Htie).
    apply (Hacc (Htie eq_refl) 1754218351000%Z); reflexivity.
  - destruct (@accepted_iff_coverage_reaches_threshold
                w (with_threshold Fake.call 0.991) 0 [] 0.99%float eq_refl)
      as (_ & _ & _ & Hrej & _).
    destruct (Hrej eq_refl) as (Hv & Hf & _). split; [exact Hv|exact Hf].
Defined.

(** C8.  Acceptance is monotone in the threshold: with the server's answers
    fixed, a scene whose export is requested under the threshold [t2] has
    the same export requested under any threshold [t1 <= t2]. *)
Theorem acceptance_is_monotone_in_threshold
    (W : World) (args : arguments) (t1 t2 : float) (img_idx : Z)
    (s1 s2 : fs W) (rq : download_request) :
  (t1 <=? t2)%float = true ->
  In (ev_download rq) (calls (scene_step W (with_threshold args t2) img_idx s2)) ->
  In (ev_download rq) (calls (scene_step W (with_threshold args t1) img_idx s1)).
Proof.
  intros Hle Hin. apply scene_step_downloads in Hin.
  destruct Hin as (r & ts & d & Hr & Hacc & Hts & Hd & ->).
  apply scene_step_downloads. exists r, ts, d.
  repeat split; try assumption.
  exact (float_leb_trans Hle Hacc).
Qed.

Lemma acceptance_is_monotone_in_threshold_witness :
  let w := Fake.world true [Fake.scene_with 0.995] in
  let rq := export_request w Fake.call 0 "2025-08-03 10:52:31" in
  (0.5 <=? 0.99)%float = true /\
  In (ev_download rq) (calls (scene_step w (with_threshold Fake.call 0.99) 0 [])) /\
  In (ev_download rq) (calls (scene_step w (with_threshold Fake.call 0.5) 0 [])).
Proof.
  intros w rq.
  assert (Hin : In (ev_download rq)
                   (calls (scene_step w (with_threshold Fake.call 0.99) 0 [])))
    by (do 4 right; left; reflexivity).
  split; [reflexivity|]. split; [exact Hin|].
  exact (@acceptance_is_monotone_in_threshold
           w Fake.call 0.5 0.99 0 [] [] rq eq_refl Hin).
Defined.

(** C5, as the code has it.  Nothing catches an exception: when a turn of
    the loop raises (a coverage query, a timestamp query, an export or the
    post-processing fails), [Sentinel2_TOA_Download] ends with that
    exception.  The scenes before it keep what was done for them, the run's
    last calls are those of the failing turn, and no later scene is
    evaluated. *)
Theorem failure_aborts_enumeration
    (W : World) (args : arguments) (s : fs W) (imgs_num : Z)
    (pre post : list Z) (img_idx : Z) (e : exn) :
  getInfo_int W (ee_size (sentinel2_toa_dataset args)) = Return imgs_num ->
  Py.range imgs_num = pre ++ img_idx :: post ->
  let before := for_each pre (scene_step W args) s in
  let failing := scene_step W args img_idx (files before) in
  value before = Return tt ->
  value failing = Raise e ->
  let run := Sentinel2_TOA_Download W args s in
  value run = Raise e /\
  files run = files failing /\
  calls run = ev_getInfo (ee_size (sentinel2_toa_dataset args))
              :: ev_print (">>> 共 " ++ Py.str imgs_num ++ " 景影像...")%string
              :: calls before ++ calls failing.
Proof.
  intros Hn Hrange before failing Hbefore Hfail run.
  unfold run, Sentinel2_TOA_Download, bind, getInfo_as_int, print; simpl.
  rewrite Hn; simpl. rewrite Hrange.
  rewrite (for_each_Raise (scene_step W args) pre img_idx post s Hbefore Hfail).
  simpl. repeat split.
Qed.

Lemma failure_aborts_enumeration_witness :
  let w := Fake.world true [Fake.scene_with 0.5; Fake.scene_unavailable;
                            Fake.scene_with 1] in
  let run := Sentinel2_TOA_Download w Fake.call [] in
  Py.range 3 = [0%Z] ++ 1%Z :: [2%Z] /\
  value run = Raise "EEException" /\
  files run = [].
Proof.
  intros w run.
  destruct (@failure_aborts_enumeration
              w Fake.call [] 3 [0%Z] [2%Z] 1 "EEException")
    as (Hv & Hf & _); try reflexivity.
  split; [reflexivity|]. split; [exact Hv|exact Hf].
Defined.

(** C5 fails as stated: of two scenes, the first fails its coverage query
    and the second covers the whole area.  The run ends with the server's
    exception after three calls; the second scene's coverage is never
    queried and nothing is exported. *)
Lemma failure_stops_later_scenes :
  let w := Fake.world true [Fake.scene_unavailable; Fake.scene_with 1] in
  let run := Sentinel2_TOA_Download w Fake.call [] in
  getInfo_float w (coverage_ratio_query Fake.call 1) = Return 1%float /\
  value run = Raise "EEException" /\
  calls run = [ev_getInfo (ee_size (sentinel2_toa_dataset Fake.call));
               ev_print ">>> 共 2 景影像...";
               ev_getInfo (coverage_ratio_query Fake.call 0)] /\
  ~ In (ev_getInfo (coverage_ratio_query Fake.call 1)) (calls run) /\
  files run = [].
Proof.
  intros w run. repeat split.
  intros [H|[H|[H|[]]]]; discriminate H.
Qed.

(** C6.  Every export a run requests carries the transform
    [(r, 0, lon_min, 0, -r, lat_max)], with [r] the resampling resolution:
    all the exports of one run carry the same transform, whichever scene
    they are for. *)
Theorem export_transform_is_anchored_at_aoi
    (W : World) (args : arguments) (s : fs W) (rq rq' : download_request) :
  In (ev_download rq) (calls (Sentinel2_TOA_Download W args s)) ->
  In (ev_download rq') (calls (Sentinel2_TOA_Download W args s)) ->
  rq_crs_transform rq
    = (resample_resolution args, 0, lon_min args,
       0, - resample_resolution args, lat_max args)%float /\
  rq_crs_transform rq' = rq_crs_transform rq.
Proof.
  intros Hin Hin'.
  pose proof (Sentinel2_TOA_Download_calls W args s) as Hall.
  rewrite Forall_forall in Hall.
  pose proof (Hall _ Hin) as H. pose proof (Hall _ Hin') as H'.
  inversion H; subst. inversion H'; subst. split; reflexivity.
Qed.

Lemma export_transform_is_anchored_at_aoi_witness :
  let w := Fake.world true [Fake.scene_with 0.995; Fake.scene_with 0.5;
                            Fake.scene_with 1] in
  let sent := calls (Sentinel2_TOA_Download w Fake.call []) in
  let rq0 := export_request w Fake.call 0 "2025-08-03 10:52:31" in
  let rq2 := export_request w Fake.call 2 "2025-08-03 10:52:31" in
  (In (ev_download rq0) sent /\ In (ev_download rq2) sent) /\
  rq_crs_transform rq0
    = (0.00008983, 0, 116.48, 0, -0.00008983, 31.22)%float /\
  rq_crs_transform rq2 = rq_crs_transform rq0.
Proof.
  intros w sent rq0 rq2.
  assert (H0 : In (ev_download rq0) sent) by (do 6 right; left; reflexivity).
  assert (H2 : In (ev_download rq2) sent) by (do 15 right; left; reflexivity).
  split; [split; assumption|].
  exact (@export_transform_is_anchored_at_aoi w Fake.call [] rq0 rq2 H0 H2).
Defined.

(** C10.  Post-processing is switched by the argument [is_postprocess],
    which defaults to [True].  When it is [False], a run never calls
    rasterio, neither to read nor to write, and the file system an accepted
    scene leaves behind is the one the exporter left: the downloaded file
    stays as exported. *)
Theorem postprocess_is_optional
    (W : World) (args : arguments) (s : fs W) :
  (forall lon_min lon_max lat_min lat_max start_date end_date folder,
      is_postprocess (with_defaults lon_min lon_max lat_min lat_max
                                    start_date end_date folder) = true) /\
  (is_postprocess args = false ->
   Forall (fun ev => is_raster_io ev = false)
          (calls (Sentinel2_TOA_Download W args s)) /\
   forall img_idx s' ts d,
     getInfo_int W (timestamp_query args img_idx) = Return ts ->
     strftime_ms W ts = Return d ->
     let exported :=
       download_ee_image W (export_request W args img_idx d) s' in
     let out := download_scene W args img_idx s' in
     value out = fst exported /\ files out = snd exported /\
     calls out = [ev_getInfo (timestamp_query args img_idx);
                  ev_print ("索引 " ++ Py.str img_idx ++ " 成像时间 " ++ d
                            ++ "，timestamp(ms)=" ++ Py.str ts)%string;
                  ev_download (export_request W args img_idx d)]).
Proof.
  split; [reflexivity|]. intros Hoff. split.
  - eapply Forall_impl; [|apply Sentinel2_TOA_Download_calls].
    intros ev Hev. inversion Hev; subst; try reflexivity; congruence.
  - intros img_idx s' ts d Hts Hd exported out.
    unfold out. rewrite download_scene_run with (ts := ts) (d := d) by assumption.
    rewrite Hoff. fold exported.
    destruct (fst exported) as [[]|e]; repeat split.
Qed.

Lemma postprocess_is_optional_witness :
  let w := Fake.world true [Fake.scene_with 1] in
  let args := with_postprocess Fake.call false in
  let run := Sentinel2_TOA_Download w args [] in
  let rq := export_request w args 0 "2025-08-03 10:52:31" in
  is_postprocess args = false /\
  Forall (fun ev => is_raster_io ev = false) (calls run) /\
  files run
    = [(rq_filename rq, (Fake.exported_profile rq (Fake.ramp 4 5), Fake.ramp 4 5))].
Proof.
  intros w args run rq. split; [reflexivity|].
  destruct (@postprocess_is_optional w args []) as (_ & Hoff).
  destruct (Hoff eq_refl) as (Hio & _).
  split; [exact Hio|reflexivity].
Defined.

(* ================================================================= *)
(** ** Post-processing: further properties *)

(** X1.  On any list, the slice [1:-1] of line 22 is the list without its
    first and its last element; on fewer than three elements nothing is
    left. *)
Theorem inner_slice_drops_first_and_last {A : Type} (l : list A) :
  Py.slice (Some 1%Z) (Some (-1)%Z) l = removelast (tl l) /\
  (length l <= 2 -> Py.slice (Some 1%Z) (Some (-1)%Z) l = []).
Proof.
  split.
  - destruct l as [|x l]; [reflexivity|].
    unfold Py.slice. rewrite slice_len_inner, slice_start_inner by (simpl; lia).
    cbn [tl skipn length]. rewrite removelast_firstn_len.
    f_equal. lia.
  - intros Hl. apply length_zero_iff_nil.
    rewrite length_slice, slice_len_inner. lia.
Qed.

Lemma inner_slice_drops_first_and_last_witness :
  length [1; 2] <= 2 /\
  Py.slice (Some 1%Z) (Some (-1)%Z) [1; 2] = [] /\
  Py.slice (Some 1%Z) (Some (-1)%Z) [1; 2; 3; 4] = [2; 3].
Proof.
  split; [simpl; lia|]. split.
  - apply (proj2 (inner_slice_drops_first_and_last [1; 2])). simpl; lia.
  - reflexivity.
Defined.

(** X2.  Whatever the size of a well-shaped array, the crop gives a
    well-shaped array with the same dtype and the same number of bands, and
    no more rows or columns than before; with at most two rows every plane
    of the result is empty, and with at most two columns every row is. *)
Theorem crop_keeps_arrays_consistent (a : ndarray) :
  well_shaped a ->
  let out := crop_border a in
  well_shaped out /\
  dtype out = dtype a /\ nbands out = nbands a /\
  height out <= height a /\ width out <= width a /\
  (height a <= 2 -> Forall (fun plane => plane = []) (planes out)) /\
  (width a <= 2 ->
   Forall (fun plane => Forall (fun row => row = []) plane) (planes out)).
Proof.
  intros Hwf out.
  pose proof (crop_border_height a) as Hh.
  pose proof (crop_border_width a) as Hw.
  fold out in Hh, Hw.
  split; [apply crop_border_well_shaped, Hwf|].
  split; [reflexivity|]. split; [apply crop_border_nbands|].
  split; [lia|]. split; [lia|].
  destruct Hwf as [_ Hp].
  unfold out, crop_border, getitem; cbn [planes fst snd].
  rewrite slice_all. split; intros Hsmall; apply Forall_map;
    (eapply Forall_impl; [|exact Hp]); intros plane [Hlen Hrows]; cbn beta.
  - assert (Hnil : Py.slice (Some 1%Z) (Some (-1)%Z) plane = []).
    { apply length_zero_iff_nil. rewrite length_slice, slice_len_inner. lia. }
    now rewrite Hnil.
  - apply Forall_map, Forall_slice.
    eapply Forall_impl; [|exact Hrows]. intros row Hrow; cbn beta in Hrow |- *.
    apply length_zero_iff_nil. rewrite length_slice, slice_len_inner. lia.
Qed.

Lemma crop_keeps_arrays_consistent_witness :
  let a := Fake.ramp 2 5 in
  height a <= 2 /\
  well_shaped (crop_border a) /\
  Forall (fun plane => plane = []) (planes (crop_border a)).
Proof.
  intros a.
  assert (Hwf : well_shaped a) by (split; [reflexivity|repeat constructor]).
  destruct (crop_keeps_arrays_consistent Hwf) as (Hout & _ & _ & _ & _ & Hrows & _).
  assert (Hh : height a <= 2) by (vm_compute; lia).
  split; [exact Hh|]. split; [exact Hout|exact (Hrows Hh)].
Defined.

(** X3.  Post-processing is not idempotent.  Run twice on a file that the
    writer stores and the reader gives back, it crops twice: the second
    write holds the array with two rows and two columns removed at every
    edge, its pixel (i, j) being pixel (i + 2, j + 2) of the first input. *)
Theorem postprocessing_twice_crops_twice
    (W : World) (T : crs_tuple) (path : string) (s s1 : fs W) (a : ndarray) :
  rasterio_read W path s = Return a ->
  well_shaped a ->
  let once := crop_border a in
  let twice := crop_border once in
  let prof1 := raster_profile once (from_epsg 4326) (Affine_of T) in
  let prof2 := raster_profile twice (from_epsg 4326) (Affine_of T) in
  rasterio_write W path prof1 once s = (Return tt, s1) ->
  rasterio_read W path s1 = Return once ->
  calls ((Process_Downloaded_Imgs W T path ;; Process_Downloaded_Imgs W T path) s)
    = [ev_read path; ev_write path prof1 once;
       ev_read path; ev_write path prof2 twice] /\
  (height twice = height a - 4 /\ width twice = width a - 4) /\
  (forall k i j, i < height twice -> j < width twice ->
                 pixel twice k i j = pixel a k (S (S i)) (S (S j))).
Proof.
  intros Hread Hwf once twice prof1 prof2 Hwrite Hread1.
  assert (Hfirst : Process_Downloaded_Imgs W T path s
                   = mk_result (Return tt) s1 [ev_read path; ev_write path prof1 once]).
  { rewrite Process_Downloaded_Imgs_run with (a := a) by exact Hread.
    fold once. fold prof1. now rewrite Hwrite. }
  pose proof (crop_border_height a) as Hh1.
  pose proof (crop_border_width a) as Hw1.
  pose proof (crop_border_height once) as Hh2.
  pose proof (crop_border_width once) as Hw2.
  fold once in Hh1, Hw1. fold twice in Hh2, Hw2.
  split; [|split; [lia|]].
  - unfold bind. rewrite Hfirst. cbn [value files calls].
    rewrite Process_Downloaded_Imgs_run with (a := once) by exact Hread1.
    reflexivity.
  - intros k i j Hi Hj. unfold twice.
    rewrite crop_border_pixel;
      [|apply crop_border_well_shaped, Hwf|fold once; lia|fold once; lia].
    unfold once. apply crop_border_pixel; [exact Hwf|lia|lia].
Qed.

Lemma postprocessing_twice_crops_twice_witness :
  let w := Fake.world false [] in
  let a := Fake.ramp 6 7 in
  let s := Fake.disk "x.tif" a in
  let r := (Process_Downloaded_Imgs w Fake.T0 "x.tif" ;;
            Process_Downloaded_Imgs w Fake.T0 "x.tif") s in
  rasterio_read w "x.tif" s = Return a /\
  shape (crop_border (crop_border a)) = (1, 2, 3) /\
  pixel (crop_border (crop_border a)) 0 0 0 = pixel a 0 2 2.
Proof.
  intros w a s r.
  assert (Hwf : well_shaped a) by (split; [reflexivity|repeat constructor]).
  destruct (@postprocessing_twice_crops_twice
              w Fake.T0 "x.tif" s
              (snd (rasterio_write w "x.tif"
                      (raster_profile (crop_border a) (from_epsg 4326)
                                      (Affine_of Fake.T0))
                      (crop_border a) s))
              a eq_refl Hwf eq_refl eq_refl) as (_ & _ & Hpix).
  split; [reflexivity|]. split; [reflexivity|].
  apply Hpix; vm_compute; lia.
Defined.

(** X4.  When the file cannot be read, post-processing ends with the
    reader's exception: the writer is not called and the file system is as
    it was. *)
Theorem unreadable_file_is_left_alone
    (W : World) (T : crs_tuple) (path : string) (s : fs W) (e : exn) :
  rasterio_read W path s = Raise e ->
  let r := Process_Downloaded_Imgs W T path s in
  value r = Raise e /\ files r = s /\ calls r = [ev_read path].
Proof.
  intros Hread r. unfold r.
  rewrite Process_Downloaded_Imgs_unreadable with (e := e) by exact Hread.
  repeat split.
Qed.

Lemma unreadable_file_is_left_alone_witness :
  let w := Fake.world true [] in
  let r := Process_Downloaded_Imgs w Fake.T0 "missing.tif" [] in
  rasterio_read w "missing.tif" [] = Raise "RasterioIOError" /\
  value r = Raise "RasterioIOError" /\ files r = [] /\
  calls r = [ev_read "missing.tif"].
Proof.
  split; [reflexivity|].
  exact (@unreadable_file_is_left_alone
           (Fake.world true []) Fake.T0 "missing.tif" [] "RasterioIOError"
           eq_refl).
Defined.

(** X5.  Post-processing rewrites the file in place, whatever its name:
    the one write goes to the path that was read.  The profile it writes
    describes the array written (count, height and width are its shape and
    the dtype is that of the array read), always with the reference system
    EPSG:4326, no nodata value, the GTiff driver and LZW compression. *)
Theorem rewrite_is_in_place
    (W : World) (T : crs_tuple) (path : string) (s : fs W) (a : ndarray) :
  rasterio_read W path s = Return a ->
  exists prof out,
    calls (Process_Downloaded_Imgs W T path s)
      = [ev_read path; ev_write path prof out] /\
    (count prof, p_height prof, p_width prof) = shape out /\
    p_dtype prof = dtype a /\ dtype out = dtype a /\
    crs prof = from_epsg 4326 /\ nodata prof = None /\
    driver prof = "GTiff"%string /\ compress prof = "lzw"%string.
Proof.
  intros Hread.
  exists (raster_profile (crop_border a) (from_epsg 4326) (Affine_of T)),
         (crop_border a).
  rewrite Process_Downloaded_Imgs_run with (a := a) by exact Hread.
  repeat split.
Qed.

Lemma rewrite_is_in_place_witness :
  let w := Fake.world true [] in
  let a := Fake.ramp 4 5 in
  exists prof out,
    calls (Process_Downloaded_Imgs w Fake.T0 "a.tif.tif" (Fake.disk "a.tif.tif" a))
      = [ev_read "a.tif.tif"; ev_write "a.tif.tif" prof out] /\
    (count prof, p_height prof, p_width prof) = shape out.
Proof.
  intros w a.
  destruct (@rewrite_is_in_place w Fake.T0 "a.tif.tif"
              (Fake.disk "a.tif.tif" a) a eq_refl)
    as (prof & out & Hcalls & Hshape & _).
  exists prof, out. split; [exact Hcalls|exact Hshape].
Defined.

(* ================================================================= *)
(** ** The name of the downloaded file *)

Lemma replace_char (old new : ascii) (s : string) :
  list_ascii_of_string (Py.replace (String old "") (String new "") s)
  = substitute old new (list_ascii_of_string s).
Proof.
  unfold Py.replace. induction s as [|ch rest IH]; [reflexivity|].
  change (Py.replace_from (String old "") (String new "") 0 (String ch rest))
    with (if String.prefix (String old "") (String ch rest)
          then (String new "" ++ Py.replace_from (String old "") (String new "")
                                                 0 rest)%string
          else String ch (Py.replace_from (String old "") (String new "") 0 rest)).
  assert (Hp : String.prefix (String old "") (String ch rest)
               = if ascii_dec old ch then true else false).
  { simpl. destruct (ascii_dec old ch); [destruct rest|]; reflexivity. }
  rewrite Hp. cbn [list_ascii_of_string substitute map].
  destruct (ascii_dec old ch); cbn [append list_ascii_of_string];
    now rewrite IH.
Qed.

Lemma substitute_removes (old new : ascii) (chars : list ascii) :
  old <> new -> ~ In old (substitute old new chars).
Proof.
  intros Hne Hin. apply in_map_iff in Hin. destruct Hin as (ch & Heq & _).
  destruct (ascii_dec old ch); congruence.
Qed.

Lemma length_list_ascii_of_string (s : string) :
  length (list_ascii_of_string s) = String.length s.
Proof. induction s as [|ch s IH]; simpl; [reflexivity|now rewrite IH]. Qed.

(** X6.  The file name of line 141 ends with the acquisition time in which
    every space has become an underscore and every colon a hyphen: that
    part is as long as the time string and holds neither a space nor a
    colon, whatever the time string is. *)
Theorem file_name_has_no_space_or_colon
    (W : World) (args : arguments) (date_time_str : string) :
  let chars := list_ascii_of_string (date_part date_time_str) in
  download_path W args date_time_str
    = (download_folderpath args ++ "\" ++ "Sentinel2" ++ "_"
       ++ (format_f W 2 (lon_min args) ++ "E_")
       ++ (format_f W 2 (lat_max args) ++ "N_")
       ++ date_part date_time_str ++ ".tif")%string /\
  chars = substitute ":" "-" (substitute " " "_"
                                         (list_ascii_of_string date_time_str)) /\
  length chars = String.length date_time_str /\
  ~ In " "%char chars /\ ~ In ":"%char chars.
Proof.
  intros chars.
  assert (Hchars : chars = substitute ":" "-"
                             (substitute " " "_"
                                         (list_ascii_of_string date_time_str))).
  { unfold chars, date_part. now rewrite !replace_char. }
  split; [reflexivity|]. split; [exact Hchars|]. rewrite Hchars. split.
  - unfold substitute. now rewrite !length_map, length_list_ascii_of_string.
  - split.
    + intros Hin. apply in_map_iff in Hin. destruct Hin as (ch & Heq & Hch).
      destruct (ascii_dec ":" ch); [discriminate Heq|]. subst ch.
      revert Hch. apply substitute_removes. discriminate.
    + apply substitute_removes. discriminate.
Qed.

(* ================================================================= *)
(** ** Floats at the edges *)

Lemma SFcompare_refl x : x <> S754_nan -> SFcompare x x = Some Eq.
Proof.
  destruct x as [[]|[]| |[] m e]; intros H; try reflexivity; try congruence;
    unfold SFcompare; rewrite Z.compare_refl;
    change (Pos.compare_cont Eq m m) with (Pos.compare m m);
    now rewrite Pos.compare_refl.
Qed.

Lemma float_is_nan_spec (x : float) :
  PrimFloat.is_nan x = true -> Prim2SF x = S754_nan.
Proof.
  unfold PrimFloat.is_nan. rewrite FloatAxioms.eqb_spec. unfold SFeqb.
  destruct (Prim2SF x) eqn:Hx; try reflexivity;
    rewrite SFcompare_refl by discriminate; discriminate.
Qed.

Lemma float_leb_nan (x y : float) :
  PrimFloat.is_nan x = true \/ PrimFloat.is_nan y = true ->
  (x <=? y)%float = false.
Proof.
  rewrite FloatAxioms.leb_spec. unfold SFleb.
  intros [H|H]; apply float_is_nan_spec in H; rewrite H.
  - reflexivity.
  - destruct (Prim2SF x); reflexivity.
Qed.

Lemma float_opp_negative (x : float) :
  (0 <? x)%float = true -> (- x <? 0)%float = true.
Proof.
  rewrite !FloatAxioms.ltb_spec, FloatAxioms.opp_spec.
  change (Prim2SF 0) with (S754_zero false).
  destruct (Prim2SF x) as [[]|[]| |[] m e]; try discriminate; reflexivity.
Qed.

(* ================================================================= *)
(** ** The loop over the scenes *)

Lemma filter_none {A} (f : A -> bool) (l : list A) :
  Forall (fun x => f x = false) l -> filter f l = [].
Proof.
  induction 1 as [|x l Hx _ IH]; simpl; [reflexivity|]. now rewrite Hx.
Qed.

Lemma firstn_seq_le (k start len : nat) :
  k <= len -> firstn k (seq start len) = seq start k.
Proof.
  revert start len. induction k as [|k IH]; intros start len Hk; [reflexivity|].
  destruct len as [|len]; [lia|]. simpl. f_equal. apply IH. lia.
Qed.

Lemma firstn_range (n : Z) (k : nat) :
  k <= length (Py.range n) -> firstn k (Py.range n) = Py.range (Z.of_nat k).
Proof.
  unfold Py.range. rewrite length_map, length_seq. intros Hk.
  now rewrite firstn_map, firstn_seq_le, Nat2Z.id.
Qed.

(** What a filter keeps of the calls of a loop, when it keeps [g x] of the
    calls of each turn: the turns that ran are a prefix of the list, and the
    whole list when the loop returns. *)
Lemma for_each_filter {W} (f : event -> bool) (g : Z -> list event)
    (body : Z -> M W unit) :
  (forall x s, filter f (calls (body x s)) = g x) ->
  forall l s,
  exists k,
    k <= length l /\
    filter f (calls (for_each l body s)) = flat_map g (firstn k l) /\
    (value (for_each l body s) = Return tt -> k = length l).
Proof.
  intros Hbody. induction l as [|x l IH]; intros s.
  - exists 0. split; [apply Nat.le_refl|]. split; reflexivity.
  - cbn [for_each]. destruct (value (body x s)) as [[]|e] eqn:Hx.
    + rewrite bind_Return with (a := tt) by exact Hx. cbn [value calls].
      destruct (IH (files (body x s))) as (k & Hk & Hcalls & Hret).
      exists (S k). split; [simpl; lia|]. split.
      * rewrite filter_app, Hbody, Hcalls. reflexivity.
      * intros Hv. simpl. now rewrite (Hret Hv).
    + rewrite bind_Raise with (e := e) by exact Hx. cbn [value calls].
      exists 1. split; [simpl; lia|]. split.
      * rewrite Hbody. cbn [firstn flat_map]. now rewrite app_nil_r.
      * discriminate.
Qed.

Section LoopFacts.
Variables (W : World) (args : arguments).

Lemma Sentinel2_TOA_Download_run s imgs_num :
  getInfo_int W (ee_size (sentinel2_toa_dataset args)) = Return imgs_num ->
  let loop := for_each (Py.range imgs_num) (scene_step W args) s in
  Sentinel2_TOA_Download W args s =
  mk_result (value loop) (files loop)
    (ev_getInfo (ee_size (sentinel2_toa_dataset args))
     :: ev_print (">>> 共 " ++ Py.str imgs_num ++ " 景影像...")%string
     :: calls loop).
Proof.
  intros Hn loop.
  unfold Sentinel2_TOA_Download, bind, getInfo_as_int, print; simpl.
  rewrite Hn; simpl. reflexivity.
Qed.

Lemma Sentinel2_TOA_Download_unavailable s e :
  getInfo_int W (ee_size (sentinel2_toa_dataset args)) = Raise e ->
  Sentinel2_TOA_Download W args s =
  mk_result (Raise e) s [ev_getInfo (ee_size (sentinel2_toa_dataset args))].
Proof.
  intros Hn. unfold Sentinel2_TOA_Download, bind, getInfo_as_int; simpl.
  now rewrite Hn.
Qed.

Lemma download_scene_no_timestamp img_idx s e :
  getInfo_int W (timestamp_query args img_idx) = Raise e ->
  download_scene W args img_idx s =
  mk_result (Raise e) s [ev_getInfo (timestamp_query args img_idx)].
Proof.
  intros Hts. unfold download_scene, bind, getInfo_as_int; simpl.
  now rewrite Hts.
Qed.

Lemma download_scene_bad_timestamp img_idx s ts e :
  getInfo_int W (timestamp_query args img_idx) = Return ts ->
  strftime_ms W ts = Raise e ->
  download_scene W args img_idx s =
  mk_result (Raise e) s [ev_getInfo (timestamp_query args img_idx)].
Proof.
  intros Hts Hd. unfold download_scene, bind, getInfo_as_int, strftime; simpl.
  rewrite Hts; simpl. now rewrite Hd.
Qed.

Lemma postprocess_calls_raster_io d :
  emits (fun ev => is_raster_io ev = true)
        (if is_postprocess args
         then Process_Downloaded_Imgs W (crsTransform args) (download_path W args d)
         else @ret W unit tt).
Proof.
  apply emits_if; intros _; [apply Process_Downloaded_Imgs_calls|apply emits_ret].
Qed.

Lemma download_scene_no_coverage_call img_idx :
  emits (fun ev => is_coverage_call ev = false) (download_scene W args img_idx).
Proof.
  unfold download_scene.
  apply emits_bind; [now apply emits_getInfo_as_int|intros ts].
  apply emits_bind; [apply emits_strftime|intros d].
  apply emits_bind; [now apply emits_print|intros _].
  apply emits_bind; [now apply emits_download|intros _].
  intros s'. eapply Forall_impl; [|apply postprocess_calls_raster_io].
  intros [] Hev; try discriminate Hev; reflexivity.
Qed.

Lemma scene_step_coverage_calls img_idx s :
  filter is_coverage_call (calls (scene_step W args img_idx s))
  = [ev_getInfo (coverage_ratio_query args img_idx)].
Proof.
  destruct (getInfo_float W (coverage_ratio_query args img_idx)) as [r|e] eqn:Hr.
  - rewrite scene_step_run with (r := r) by exact Hr. cbn [calls filter].
    cbn [is_coverage_call coverage_ratio_query]. f_equal.
    apply filter_none.
    destruct (coverage_ratio_threshold args <=? r)%float;
      [apply download_scene_no_coverage_call|constructor].
  - now rewrite scene_step_unavailable with (e := e).
Qed.

Lemma download_scene_download_calls img_idx s :
  filter is_download_call (calls (download_scene W args img_idx s))
  = match getInfo_int W (timestamp_query args img_idx) with
    | Return ts =>
        match strftime_ms W ts with
        | Return d => [ev_download (export_request W args img_idx d)]
        | Raise _ => []
        end
    | Raise _ => []
    end.
Proof.
  destruct (getInfo_int W (timestamp_query args img_idx)) as [ts|e] eqn:Hts.
  2:{ now rewrite download_scene_no_timestamp with (e := e). }
  destruct (strftime_ms W ts) as [d|e] eqn:Hd.
  2:{ now rewrite download_scene_bad_timestamp with (ts := ts) (e := e). }
  rewrite download_scene_run with (ts := ts) (d := d) by assumption.
  destruct (fst (download_ee_image W (export_request W args img_idx d) s));
    cbn [calls filter is_download_call]; [|reflexivity].
  f_equal. apply filter_none.
  eapply Forall_impl; [|apply postprocess_calls_raster_io].
  intros [] Hev; try discriminate Hev; reflexivity.
Qed.

Lemma scene_step_download_calls img_idx s :
  filter is_download_call (calls (scene_step W args img_idx s))
  = export_of W args img_idx.
Proof.
  unfold export_of.
  destruct (getInfo_float W (coverage_ratio_query args img_idx)) as [r|e] eqn:Hr.
  - rewrite scene_step_run with (r := r) by exact Hr.
    cbn [calls filter is_download_call].
    destruct (coverage_ratio_threshold args <=? r)%float; [|reflexivity].
    apply download_scene_download_calls.
  - now rewrite scene_step_unavailable with (e := e).
Qed.

(** A scene below the threshold costs a query and a line of output. *)
Lemma scene_step_rejected img_idx s r :
  getInfo_float W (coverage_ratio_query args img_idx) = Return r ->
  (coverage_ratio_threshold args <=? r)%float = false ->
  scene_step W args img_idx s =
  mk_result (Return tt) s
    [ev_getInfo (coverage_ratio_query args img_idx);
     ev_print (">>> 第 " ++ Py.str (img_idx + 1) ++ " 景影像，有效值覆盖率: "
               ++ format_f W 4 r)%string].
Proof.
  intros Hr Hrej. rewrite scene_step_run with (r := r) by exact Hr.
  now rewrite Hrej.
Qed.

Lemma for_each_rejected l s :
  (forall x, In x l ->
     exists r, getInfo_float W (coverage_ratio_query args x) = Return r /\
               (coverage_ratio_threshold args <=? r)%float = false) ->
  let loop := for_each l (scene_step W args) s in
  value loop = Return tt /\ files loop = s /\
  Forall (fun ev => is_download_call ev = false /\ is_raster_io ev = false)
         (calls loop).
Proof.
  induction l as [|x l IH]; intros Hall; cbn zeta.
  - repeat split. constructor.
  - destruct (Hall x (or_introl eq_refl)) as (r & Hr & Hrej).
    cbn [for_each]. unfold bind.
    rewrite (scene_step_rejected x s Hr Hrej). cbn [value files calls].
    destruct IH as (Hv & Hf & Hc); [intros y Hy; apply Hall; now right|].
    split; [exact Hv|]. split; [exact Hf|].
    repeat (constructor; [split; reflexivity|]). exact Hc.
Qed.

End LoopFacts.

(* ================================================================= *)
(** ** Scene selection: further properties *)

Lemma flat_map_singleton {A B} (f : A -> B) (l : list A) :
  flat_map (fun x => [f x]) l = map f l.
Proof. induction l as [|x l IH]; simpl; [reflexivity|now rewrite IH]. Qed.

Lemma range_of_length (n : Z) : Py.range (Z.of_nat (length (Py.range n))) = Py.range n.
Proof. unfold Py.range. now rewrite length_map, length_seq, Nat2Z.id. Qed.

(** X7.  When the server finds no scene (a size of 0, or any size that is
    not positive), the run asks for the size, prints it and returns: no
    scene is queried and the file system is as it was. *)
Theorem empty_collection_downloads_nothing
    (W : World) (args : arguments) (s : fs W) (imgs_num : Z) :
  getInfo_int W (ee_size (sentinel2_toa_dataset args)) = Return imgs_num ->
  (imgs_num <= 0)%Z ->
  let run := Sentinel2_TOA_Download W args s in
  value run = Return tt /\ files run = s /\
  calls run = [ev_getInfo (ee_size (sentinel2_toa_dataset args));
               ev_print (">>> 共 " ++ Py.str imgs_num ++ " 景影像...")%string].
Proof.
  intros Hn Hle run. unfold run.
  rewrite Sentinel2_TOA_Download_run with (imgs_num := imgs_num) by exact Hn.
  assert (Hrange : Py.range imgs_num = []).
  { unfold Py.range. now replace (Z.to_nat imgs_num) with 0 by lia. }
  rewrite Hrange. repeat split.
Qed.

Lemma empty_collection_downloads_nothing_witness :
  let w := Fake.world true [] in
  let run := Sentinel2_TOA_Download w Fake.call [] in
  (0 <= 0)%Z /\ value run = Return tt /\ files run = [] /\
  calls run = [ev_getInfo (ee_size (sentinel2_toa_dataset Fake.call));
               ev_print ">>> 共 0 景影像..."].
Proof.
  split; [lia|].
  apply (@empty_collection_downloads_nothing (Fake.world true []) Fake.call [] 0);
    [reflexivity|lia].
Defined.

(** X8.  When the size of the collection cannot be fetched, the run ends
    with the server's exception after that one call: nothing is printed, no
    scene is queried and the file system is as it was. *)
Theorem unavailable_catalogue_stops_the_run
    (W : World) (args : arguments) (s : fs W) (e : exn) :
  getInfo_int W (ee_size (sentinel2_toa_dataset args)) = Raise e ->
  let run := Sentinel2_TOA_Download W args s in
  value run = Raise e /\ files run = s /\
  calls run = [ev_getInfo (ee_size (sentinel2_toa_dataset args))].
Proof.
  intros Hn run. unfold run.
  rewrite Sentinel2_TOA_Download_unavailable with (e := e) by exact Hn.
  repeat split.
Qed.

Lemma unavailable_catalogue_stops_the_run_witness :
  let w := mk_World (fs := unit)
             (fun _ => Raise "EEException") (fun _ => Raise "EEException")
             (fun _ s => (Return tt, s)) (fun _ _ => Raise "RasterioIOError")
             (fun _ _ _ s => (Return tt, s)) (fun _ => Return ""%string)
             (fun _ _ => ""%string) in
  let run := Sentinel2_TOA_Download w Fake.call tt in
  value run = Raise "EEException" /\ files run = tt /\
  calls run = [ev_getInfo (ee_size (sentinel2_toa_dataset Fake.call))].
Proof.
  intros w.
  apply (@unavailable_catalogue_stops_the_run w Fake.call tt "EEException").
  reflexivity.
Defined.

(** X9.  The coverage queries of a run are those of the scenes 0, 1, 2, ...
    in that order, one per scene, up to the scene at which the run stopped;
    a run that returns has queried every scene of the collection. *)
Theorem coverage_queries_in_scene_order
    (W : World) (args : arguments) (s : fs W) (imgs_num : Z) :
  getInfo_int W (ee_size (sentinel2_toa_dataset args)) = Return imgs_num ->
  let run := Sentinel2_TOA_Download W args s in
  exists k,
    (Z.of_nat k <= Z.max 0 imgs_num)%Z /\
    filter is_coverage_call (calls run)
      = map (fun i => ev_getInfo (coverage_ratio_query args i))
            (Py.range (Z.of_nat k)) /\
    (value run = Return tt -> Py.range (Z.of_nat k) = Py.range imgs_num).
Proof.
  intros Hn run. unfold run.
  rewrite Sentinel2_TOA_Download_run with (imgs_num := imgs_num) by exact Hn.
  cbn [value calls filter is_coverage_call].
  destruct (for_each_filter is_coverage_call
              (fun i => [ev_getInfo (coverage_ratio_query args i)])
              (scene_step W args) (scene_step_coverage_calls W args)
              (Py.range imgs_num) s) as (k & Hk & Hcalls & Hret).
  exists k. split; [|split].
  - unfold Py.range in Hk. rewrite length_map, length_seq in Hk. lia.
  - now rewrite Hcalls, flat_map_singleton, firstn_range.
  - intros Hv. rewrite (Hret Hv). apply range_of_length.
Qed.

Lemma coverage_queries_in_scene_order_witness :
  let w := Fake.world true [Fake.scene_with 0.5; Fake.scene_with 1;
                            Fake.scene_with 0.2] in
  let run := Sentinel2_TOA_Download w Fake.call [] in
  value run = Return tt /\
  exists k,
    filter is_coverage_call (calls run)
      = map (fun i => ev_getInfo (coverage_ratio_query Fake.call i))
            (Py.range (Z.of_nat k)) /\
    Py.range (Z.of_nat k) = [0; 1; 2]%Z.
Proof.
  intros w run. split; [reflexivity|].
  destruct (@coverage_queries_in_scene_order w Fake.call [] 3 eq_refl)
    as (k & _ & Hcalls & Hret).
  exists k. split; [exact Hcalls|]. exact (Hret eq_refl).
Defined.

(** X10.  The exports of a run are, in scene order, exactly the exports
    the server's answers select ([export_of]) for the scenes up to the one
    at which the run stopped: at most one per scene, never out of order;
    a run that returns has exported every selected scene of the
    collection. *)
Theorem exports_follow_scene_order
    (W : World) (args : arguments) (s : fs W) (imgs_num : Z) :
  getInfo_int W (ee_size (sentinel2_toa_dataset args)) = Return imgs_num ->
  let run := Sentinel2_TOA_Download W args s in
  exists k,
    (Z.of_nat k <= Z.max 0 imgs_num)%Z /\
    filter is_download_call (calls run)
      = flat_map (export_of W args) (Py.range (Z.of_nat k)) /\
    (value run = Return tt -> Py.range (Z.of_nat k) = Py.range imgs_num).
Proof.
  intros Hn run. unfold run.
  rewrite Sentinel2_TOA_Download_run with (imgs_num := imgs_num) by exact Hn.
  cbn [value calls filter is_download_call].
  destruct (for_each_filter is_download_call (export_of W args)
              (scene_step W args) (scene_step_download_calls W args)
              (Py.range imgs_num) s) as (k & Hk & Hcalls & Hret).
  exists k. split; [|split].
  - unfold Py.range in Hk. rewrite length_map, length_seq in Hk. lia.
  - now rewrite Hcalls, firstn_range.
  - intros Hv. rewrite (Hret Hv). apply range_of_length.
Qed.

Lemma exports_follow_scene_order_witness :
  let w := Fake.world true [Fake.scene_with 0.5; Fake.scene_with 0.995;
                            Fake.scene_with 0.2; Fake.scene_with 1;
                            Fake.scene_with 0.9] in
  let run := Sentinel2_TOA_Download w Fake.call [] in
  let d := "2025-08-03 10:52:31"%string in
  value run = Return tt /\
  filter is_download_call (calls run)
    = [ev_download (export_request w Fake.call 1 d);
       ev_download (export_request w Fake.call 3 d)].
Proof.
  intros w run d. split; [reflexivity|].
  destruct (@exports_follow_scene_order w Fake.call [] 5 eq_refl)
    as (k & _ & Hcalls & Hret).
  unfold run. rewrite Hcalls, (Hret eq_refl). reflexivity.
Defined.

(** X11.  When every scene of the collection is answered with a coverage
    below the threshold, the run returns normally, requests no export, never
    calls rasterio and leaves the file system as it was. *)
Theorem rejected_scenes_leave_files_alone
    (W : World) (args : arguments) (s : fs W) (imgs_num : Z) :
  getInfo_int W (ee_size (sentinel2_toa_dataset args)) = Return imgs_num ->
  (forall i, In i (Py.range imgs_num) ->
     exists r, getInfo_float W (coverage_ratio_query args i) = Return r /\
               (coverage_ratio_threshold args <=? r)%float = false) ->
  let run := Sentinel2_TOA_Download W args s in
  value run = Return tt /\ files run = s /\
  Forall (fun ev => is_download_call ev = false /\ is_raster_io ev = false)
         (calls run).
Proof.
  intros Hn Hall run. unfold run.
  rewrite Sentinel2_TOA_Download_run with (imgs_num := imgs_num) by exact Hn.
  destruct (for_each_rejected W args (Py.range imgs_num) s Hall)
    as (Hv & Hf & Hc).
  cbn [value files calls]. split; [exact Hv|]. split; [exact Hf|].
  repeat (constructor; [split; reflexivity|]). exact Hc.
Qed.

Lemma rejected_scenes_leave_files_alone_witness :
  let w := Fake.world true [Fake.scene_with 0.5; Fake.scene_with 0.98] in
  let s := Fake.disk "kept.tif" (Fake.ramp 4 5) in
  let run := Sentinel2_TOA_Download w Fake.call s in
  value run = Return tt /\ files run = s.
Proof.
  intros w s run.
  destruct (@rejected_scenes_leave_files_alone w Fake.call s 2 eq_refl)
    as (Hv & Hf & _).
  - intros i [<-|[<-|[]]]; eexists; split; reflexivity.
  - split; [exact Hv|exact Hf].
Defined.

(** X12.  A coverage ratio or a threshold that is not a number never
    accepts: every comparison with a NaN is false, so the scene is skipped as
    if its coverage were too low. *)
Theorem nan_never_accepts
    (W : World) (args : arguments) (img_idx : Z) (s : fs W) (r : float) :
  getInfo_float W (coverage_ratio_query args img_idx) = Return r ->
  PrimFloat.is_nan (coverage_ratio_threshold args) = true
  \/ PrimFloat.is_nan r = true ->
  let out := scene_step W args img_idx s in
  value out = Return tt /\ files out = s /\
  Forall (fun ev => is_download_call ev = false) (calls out).
Proof.
  intros Hr Hnan out. unfold out.
  rewrite (scene_step_rejected W args img_idx s Hr (float_leb_nan _ _ Hnan)).
  repeat split. repeat constructor.
Qed.

Lemma nan_never_accepts_witness :
  let w := Fake.world true [Fake.scene_with PrimFloat.nan] in
  let out := scene_step w Fake.call 0 [] in
  PrimFloat.is_nan PrimFloat.nan = true /\
  value out = Return tt /\ files out = [].
Proof.
  intros w out. split; [reflexivity|].
  destruct (@nan_never_accepts w Fake.call 0 [] PrimFloat.nan eq_refl
              (or_intror eq_refl)) as (Hv & Hf & _).
  split; [exact Hv|exact Hf].
Defined.

(** X13.  With a positive resampling resolution, every export of a run is
    requested on a north-up grid: a positive x scale, a negative y scale (as
    the comment on line 136 requires), no shear, and the origin at the
    top-left corner [(lon_min, lat_max)] of the area. *)
Theorem export_grid_is_north_up
    (W : World) (args : arguments) (s : fs W) (rq : download_request) :
  (0 <? resample_resolution args)%float = true ->
  In (ev_download rq) (calls (Sentinel2_TOA_Download W args s)) ->
  let T := Affine_of (rq_crs_transform rq) in
  (0 <? aff_a T)%float = true /\ (aff_e T <? 0)%float = true /\
  aff_b T = 0%float /\ aff_d T = 0%float /\
  origin T = (lon_min args, lat_max args).
Proof.
  intros Hpos Hin T.
  pose proof (Sentinel2_TOA_Download_calls W args s) as Hall.
  rewrite Forall_forall in Hall. specialize (Hall _ Hin).
  inversion Hall; subst. unfold T; cbn.
  split; [exact Hpos|]. split; [apply float_opp_negative, Hpos|].
  repeat split.
Qed.

Lemma export_grid_is_north_up_witness :
  let w := Fake.world true [Fake.scene_with 1] in
  let rq := export_request w Fake.call 0 "2025-08-03 10:52:31" in
  (0 <? resample_resolution Fake.call)%float = true /\
  In (ev_download rq) (calls (Sentinel2_TOA_Download w Fake.call [])) /\
  (aff_e (Affine_of (rq_crs_transform rq)) <? 0)%float = true.
Proof.
  intros w rq.
  assert (Hin : In (ev_download rq)
                   (calls (Sentinel2_TOA_Download w Fake.call [])))
    by (do 6 right; left; reflexivity).
  split; [reflexivity|]. split; [exact Hin|].
  destruct (@export_grid_is_north_up w Fake.call [] rq eq_refl Hin)
    as (_ & Hneg & _).
  exact Hneg.
Defined.

(** X14.  When the export of an accepted scene fails, the scene's turn ends
    with the exporter's exception: the file is not post-processed (rasterio
    is not called), whatever [is_postprocess] is, and the file system is the
    one the exporter left. *)
Theorem failed_export_is_not_postprocessed
    (W : World) (args : arguments) (img_idx : Z) (s s1 : fs W)
    (ts : Z) (d : string) (e : exn) :
  getInfo_int W (timestamp_query args img_idx) = Return ts ->
  strftime_ms W ts = Return d ->
  download_ee_image W (export_request W args img_idx d) s = (Raise e, s1) ->
  let out := download_scene W args img_idx s in
  value out = Raise e /\ files out = s1 /\
  Forall (fun ev => is_raster_io ev = false) (calls out).
Proof.
  intros Hts Hd Hexp out. unfold out.
  rewrite download_scene_run with (ts := ts) (d := d) by assumption.
  rewrite Hexp. cbn [fst snd value files calls].
  repeat split. repeat constructor.
Qed.

Lemma failed_export_is_not_postprocessed_witness :
  let w := Fake.world true
             [Fake.mk_scene (Return 1%float) (Return 1754218351000%Z)
                            (Raise "ExportError")] in
  let out := download_scene w Fake.call 0 [] in
  is_postprocess Fake.call = true /\
  value out = Raise "ExportError" /\ files out = [] /\
  Forall (fun ev => is_raster_io ev = false) (calls out).
Proof.
  intros w out. split; [reflexivity|].
  exact (@failed_export_is_not_postprocessed
           w Fake.call 0 [] [] 1754218351000 "2025-08-03 10:52:31" "ExportError"
           eq_refl eq_refl eq_refl).
Defined.

(** X15.  With [is_postprocess] on, an accepted scene whose export
    succeeds is post-processed in place: the file read back and the file
    written are the file the exporter was asked to produce, the array
    written is the crop of the array read, and the transform written is the
    one the export was requested with.  The turn ends as the writer ends. *)
Theorem postprocessing_rewrites_the_exported_file
    (W : World) (args : arguments) (img_idx : Z) (s s1 : fs W)
    (ts : Z) (d : string) (a : ndarray) :
  is_postprocess args = true ->
  getInfo_int W (timestamp_query args img_idx) = Return ts ->
  strftime_ms W ts = Return d ->
  let rq := export_request W args img_idx d in
  download_ee_image W rq s = (Return tt, s1) ->
  rasterio_read W (rq_filename rq) s1 = Return a ->
  let out := download_scene W args img_idx s in
  exists line prof,
    calls out = [ev_getInfo (timestamp_query args img_idx); ev_print line;
                 ev_download rq; ev_read (rq_filename rq);
                 ev_write (rq_filename rq) prof (crop_border a)] /\
    transform prof = Affine_of (rq_crs_transform rq) /\
    (value out, files out)
      = rasterio_write W (rq_filename rq) prof (crop_border a) s1.
Proof.
  intros Hon Hts Hd rq Hexp Hread out. unfold out.
  rewrite download_scene_run with (ts := ts) (d := d) by assumption.
  fold rq. rewrite Hexp, Hon. cbn [fst snd].
  change (download_path W args d) with (rq_filename rq).
  change (crsTransform args) with (rq_crs_transform rq).
  rewrite Process_Downloaded_Imgs_run with (a := a) by exact Hread.
  cbn [value files calls]. do 2 eexists.
  split; [reflexivity|]. split; [reflexivity|].
  now destruct (rasterio_write W (rq_filename rq) _ (crop_border a) s1).
Qed.

Lemma postprocessing_rewrites_the_exported_file_witness :
  let w := Fake.world true [Fake.scene_with 1] in
  let rq := export_request w Fake.call 0 "2025-08-03 10:52:31" in
  let out := download_scene w Fake.call 0 [] in
  is_postprocess Fake.call = true /\
  exists line prof,
    calls out = [ev_getInfo (timestamp_query Fake.call 0); ev_print line;
                 ev_download rq; ev_read (rq_filename rq);
                 ev_write (rq_filename rq) prof (crop_border (Fake.ramp 4 5))] /\
    transform prof = Affine_of (rq_crs_transform rq).
Proof.
  intros w rq out. split; [reflexivity|].
  destruct (@postprocessing_rewrites_the_exported_file
              w Fake.call 0 []
              (snd (download_ee_image w rq []))
              1754218351000 "2025-08-03 10:52:31" (Fake.ramp 4 5)
              eq_refl eq_refl eq_refl eq_refl eq_refl)
    as (line & prof & Hcalls & Htr & _).
  exists line, prof. split; [exact Hcalls|exact Htr].
Defined.

(** X16.  When a scene is accepted but its timestamp cannot be fetched or
    cannot be formatted, its turn ends with that exception before any export
    is requested, and the file system is as it was. *)
Theorem failed_timestamp_requests_no_export
    (W : World) (args : arguments) (img_idx : Z) (s : fs W) (r : float)
    (e : exn) :
  getInfo_float W (coverage_ratio_query args img_idx) = Return r ->
  (coverage_ratio_threshold args <=? r)%float = true ->
  getInfo_int W (timestamp_query args img_idx) = Raise e
  \/ (exists ts, getInfo_int W (timestamp_query args img_idx) = Return ts /\
                 strftime_ms W ts = Raise e) ->
  let out := scene_step W args img_idx s in
  value out = Raise e /\ files out = s /\
  Forall (fun ev => is_download_call ev = false) (calls out).
Proof.
  intros Hr Hacc Hfail out. unfold out.
  rewrite scene_step_run with (r := r) by exact Hr. rewrite Hacc.
  destruct Hfail as [Hts|(ts & Hts & Hd)].
  - rewrite download_scene_no_timestamp with (e := e) by exact Hts.
    repeat split. repeat constructor.
  - rewrite download_scene_bad_timestamp with (ts := ts) (e := e) by assumption.
    repeat split. repeat constructor.
Qed.

Lemma failed_timestamp_requests_no_export_witness :
  let w := Fake.world true
             [Fake.mk_scene (Return 1%float) (Raise "EEException")
                            (Return (Fake.ramp 4 5))] in
  let out := scene_step w Fake.call 0 [] in
  (coverage_ratio_threshold Fake.call <=? 1)%float = true /\
  value out = Raise "EEException" /\ files out = [] /\
  Forall (fun ev => is_download_call ev = false) (calls out).
Proof.
  intros w out. split; [reflexivity|].
  exact (@failed_timestamp_requests_no_export
           w Fake.call 0 [] 1%float "EEException" eq_refl eq_refl
           (or_introl eq_refl)).
Defined.

Lemma In_firstn {A} (k : nat) (l : list A) (x : A) :
  In x (firstn k l) -> In x l.
Proof.
  revert k. induction l as [|y l IH]; intros [|k]; simpl; try tauto.
  intros [->|H]; [now left|right; eauto].
Qed.

Lemma export_of_monotone (W : World) (args : arguments) (t1 t2 : float)
    (img_idx : Z) (ev : event) :
  (t1 <=? t2)%float = true ->
  In ev (export_of W (with_threshold args t2) img_idx) ->
  In ev (export_of W (with_threshold args t1) img_idx).
Proof.
  intros Hle. unfold export_of.
  change (coverage_ratio_query (with_threshold args t2) img_idx)
    with (coverage_ratio_query (with_threshold args t1) img_idx).
  change (timestamp_query (with_threshold args t2) img_idx)
    with (timestamp_query (with_threshold args t1) img_idx).
  cbn [coverage_ratio_threshold with_threshold].
  destruct (getInfo_float W _) as [r|e]; [|exact (fun H => H)].
  destruct (t2 <=? r)%float eqn:Hacc; [|intros []].
  rewrite (float_leb_trans Hle Hacc).
  destruct (getInfo_int W _) as [ts|e]; [|exact (fun H => H)].
  destruct (strftime_ms W ts) as [d|e]; exact (fun H => H).
Qed.

(** X17.  Over whole runs that return normally, raising the threshold
    never adds an export: every export requested by the run under the
    threshold [t2] is requested by the run under any threshold [t1 <= t2]. *)
Theorem raising_the_threshold_adds_no_export
    (W : World) (args : arguments) (t1 t2 : float) (s1 s2 : fs W)
    (rq : download_request) :
  (t1 <=? t2)%float = true ->
  let run1 := Sentinel2_TOA_Download W (with_threshold args t1) s1 in
  let run2 := Sentinel2_TOA_Download W (with_threshold args t2) s2 in
  value run1 = Return tt ->
  In (ev_download rq) (calls run2) ->
  In (ev_download rq) (calls run1).
Proof.
  intros Hle run1 run2 Hret1 Hin.
  assert (Hdl : forall l, In (ev_download rq) l <->
                          In (ev_download rq) (filter is_download_call l)).
  { intros l. rewrite filter_In. split; [intros H; now split|intros [H _]; exact H]. }
  apply Hdl in Hin. apply Hdl.
  destruct (getInfo_int W (ee_size (sentinel2_toa_dataset args)))
    as [imgs_num|e] eqn:Hn.
  2:{ unfold run1 in Hret1.
      rewrite Sentinel2_TOA_Download_unavailable with (e := e) in Hret1
        by exact Hn.
      discriminate Hret1. }
  unfold run1, run2 in *.
  rewrite Sentinel2_TOA_Download_run with (imgs_num := imgs_num) in Hret1, Hin |- *
    by exact Hn.
  cbn [value calls filter is_download_call] in Hret1, Hin |- *.
  destruct (for_each_filter is_download_call
              (export_of W (with_threshold args t1))
              (scene_step W (with_threshold args t1))
              (scene_step_download_calls W (with_threshold args t1))
              (Py.range imgs_num) s1) as (k1 & _ & Hcalls1 & Hall1).
  destruct (for_each_filter is_download_call
              (export_of W (with_threshold args t2))
              (scene_step W (with_threshold args t2))
              (scene_step_download_calls W (with_threshold args t2))
              (Py.range imgs_num) s2) as (k2 & _ & Hcalls2 & _).
  rewrite Hcalls1, (Hall1 Hret1), firstn_all.
  rewrite Hcalls2 in Hin.
  apply in_flat_map in Hin. destruct Hin as (i & Hi & Hev).
  apply in_flat_map. exists i. split.
  - eapply In_firstn; exact Hi.
  - eapply export_of_monotone; eassumption.
Qed.

Lemma raising_the_threshold_adds_no_export_witness :
  let w := Fake.world true [Fake.scene_with 0.5; Fake.scene_with 0.995] in
  let rq := export_request w Fake.call 1 "2025-08-03 10:52:31" in
  (0.4 <=? 0.99)%float = true /\
  value (Sentinel2_TOA_Download w (with_threshold Fake.call 0.4) []) = Return tt /\
  In (ev_download rq)
     (calls (Sentinel2_TOA_Download w (with_threshold Fake.call 0.4) [])).
Proof.
  intros w rq. split; [reflexivity|]. split; [reflexivity|].
  apply (@raising_the_threshold_adds_no_export
           w Fake.call 0.4 0.99 [] [] rq eq_refl eq_refl).
  do 8 right; left; reflexivity.
Defined.

(** X18.  Every export a run requests is for a scene of the collection,
    clipped to the area and divided by the constant 10000: the division is
    the only arithmetic the script puts in the image, and nothing clamps it.
    The request is for the area's rectangle, in EPSG:4326, with bilinear
    resampling, to a file named as on line 141.  The pixel values are then
    computed by the server. *)
Theorem export_image_is_scene_over_10000
    (W : World) (args : arguments) (s : fs W) (rq : download_request) :
  In (ev_download rq) (calls (Sentinel2_TOA_Download W args s)) ->
  exists img_idx date_time_str,
    rq_image rq
      = ee_divide (ee_clip (ee_Image (ee_List_get (imgs_list args) img_idx))
                           (rect_polygon args))
                  (ee_constant 10000) /\
    rq_filename rq = download_path W args date_time_str /\
    rq_region rq = rect_polygon args /\
    rq_crs rq = "EPSG:4326"%string /\
    rq_resampling rq = "bilinear"%string.
Proof.
  intros Hin.
  pose proof (Sentinel2_TOA_Download_calls W args s) as Hall.
  rewrite Forall_forall in Hall. specialize (Hall _ Hin).
  inversion Hall; subst. exists img_idx, date_time_str. repeat split.
Qed.

Lemma export_image_is_scene_over_10000_witness :
  let w := Fake.world true [Fake.scene_with 1] in
  let rq := export_request w Fake.call 0 "2025-08-03 10:52:31" in
  In (ev_download rq) (calls (Sentinel2_TOA_Download w Fake.call [])) /\
  exists img_idx,
    rq_image rq
      = ee_divide (ee_clip (ee_Image (ee_List_get (imgs_list Fake.call) img_idx))
                           (rect_polygon Fake.call))
                  (ee_constant 10000) /\
    rq_resampling rq = "bilinear"%string.
Proof.
  intros w rq.
  assert (Hin : In (ev_download rq)
                   (calls (Sentinel2_TOA_Download w Fake.call [])))
    by (do 6 right; left; reflexivity).
  split; [exact Hin|].
  destruct (@export_image_is_scene_over_10000 w Fake.call [] rq Hin)
    as (img_idx & d & Himg & _ & _ & _ & Hres).
  exists img_idx. split; [exact Himg|exact Hres].
Defined.
